(** * CapCut API MCP server: dispatch core and transport adapters

    A shallow embedding of [mcp_server.py] (class [CapCutMCPServer], the
    stdio handler [handle_call_tool]) and of [mcp_server_sse.py] (the SSE
    handler [call_tool]), and the properties of the draft registry, of the
    result envelope and of the two adapters that the specification states.

    Python values are embedded as the inductive [pyval]; a [dict] whose
    keys are strings is an association list in insertion order; the
    registry [self.drafts] is a finite map from draft ids to session
    dicts.  Exceptions are explicit: every computation returns an
    [outcome].  The Composer functions, [uuid.uuid4],
    [traceback.format_exc], [float.__repr__] and the import-time flag
    [CAPCUT_AVAILABLE] are the environment [Env] the server runs in. *)

From Stdlib Require Import ZArith Ascii PrimFloat FloatOps SpecFloat.
From stdpp Require Import gmap strings list pretty.

Local Open Scope string_scope.
Set Warnings "-register-all,-inexact-float".

(** ** Python values *)

(** [VObj n] stands for any object that is not one of the JSON types (a
    value returned by the Composer, a [TextStyleRange] instance); [n] is
    its identity.  A [float] is an IEEE 754 binary64, as in CPython. *)
Inductive pyval : Type :=
| VNone
| VBool (b : bool)
| VInt (z : Z)
| VFloat (f : float)
| VStr (s : string)
| VList (l : list pyval)
| VDict (d : list (string * pyval))
| VObj (n : nat).

Abbreviation pydict := (list (string * pyval)).

Definition type_name (v : pyval) : string :=
  match v with
  | VNone => "NoneType"
  | VBool _ => "bool"
  | VInt _ => "int"
  | VFloat _ => "float"
  | VStr _ => "str"
  | VList _ => "list"
  | VDict _ => "dict"
  | VObj _ => "object"
  end.

(** [bool(v)], the truth value that [not v] negates. *)
Definition truthy (v : pyval) : bool :=
  match v with
  | VNone => false
  | VBool b => b
  | VInt z => negb (z =? 0)%Z
  | VFloat f => negb (PrimFloat.eqb f 0%float)
  | VStr s => negb (String.eqb s EmptyString)
  | VList l => match l with [] => false | _ => true end
  | VDict d => match d with [] => false | _ => true end
  | VObj _ => true
  end.

(** [d.get(k)] as an option: the first binding of [k]. *)
Fixpoint dict_get (d : pydict) (k : string) : option pyval :=
  match d with
  | [] => None
  | (k', v) :: d' => if String.eqb k' k then Some v else dict_get d' k
  end.

(** [k in d] *)
Definition dict_mem (d : pydict) (k : string) : bool :=
  match dict_get d k with Some _ => true | None => false end.

(** [args.get(k, dflt)] *)
Definition get (d : pydict) (k : string) (dflt : pyval) : pyval :=
  match dict_get d k with Some v => v | None => dflt end.

(** ** Exceptions and outcomes *)

(** A raised exception object: its class name, [str(e)], and whether it
    is an instance of [Exception], which is what [except Exception]
    catches.  [SystemExit], [KeyboardInterrupt] and [GeneratorExit]
    derive from [BaseException] only and are not. *)
Record exn : Type := Exn {
  exn_class : string;
  exn_str : string;
  exn_is_Exception : bool
}.

Inductive outcome (A : Type) : Type :=
| Returns (a : A)
| Raises (e : exn).
Arguments Returns {A} a.
Arguments Raises {A} e.

#[global] Instance outcome_ret : MRet outcome := fun A a => Returns a.
#[global] Instance outcome_bind : MBind outcome := fun A B f m =>
  match m with
  | Returns a => f a
  | Raises e => Raises e
  end.

(** [str(KeyError(k))] is the [repr] of the key. *)
Definition KeyError (k : string) : exn :=
  Exn "KeyError" ("'" ++ k ++ "'") true.
Definition TypeError (msg : string) : exn := Exn "TypeError" msg true.
Definition AttributeError (v : pyval) (attr : string) : exn :=
  Exn "AttributeError"
      ("'" ++ type_name v ++ "' object has no attribute '" ++ attr ++ "'")
      true.
Definition OverflowError (msg : string) : exn := Exn "OverflowError" msg true.
Definition ValueError (msg : string) : exn := Exn "ValueError" msg true.
Definition RecursionError (msg : string) : exn :=
  Exn "RecursionError" msg true.

(** [d[k]] *)
Definition item (d : pydict) (k : string) : outcome pyval :=
  match dict_get d k with
  | Some v => Returns v
  | None => Raises (KeyError k)
  end.

(** ** Arithmetic: [a - b] *)

(** [float(z)] for an [int]: round to nearest, ties to even;
    [OverflowError] when the result is not finite. *)
Definition int_to_float (z : Z) : outcome float :=
  let f := SF2Prim (binary_normalize prec emax z 0 false) in
  if PrimFloat.is_infinity f
  then Raises (OverflowError "int too large to convert to float")
  else Returns f.

Inductive number : Type :=
| NInt (z : Z)
| NFloat (f : float).

(** [bool] is a subclass of [int]. *)
Definition as_number (v : pyval) : option number :=
  match v with
  | VBool b => Some (NInt (Z.b2z b))
  | VInt z => Some (NInt z)
  | VFloat f => Some (NFloat f)
  | _ => None
  end.

Definition py_sub (a b : pyval) : outcome pyval :=
  match as_number a, as_number b with
  | Some (NInt x), Some (NInt y) => Returns (VInt (x - y))
  | Some (NFloat x), Some (NFloat y) => Returns (VFloat (x - y))
  | Some (NInt x), Some (NFloat y) =>
      fx ← int_to_float x; Returns (VFloat (fx - y))
  | Some (NFloat x), Some (NInt y) =>
      fy ← int_to_float y; Returns (VFloat (x - fy))
  | _, _ =>
      Raises (TypeError ("unsupported operand type(s) for -: '" ++
                         type_name a ++ "' and '" ++ type_name b ++ "'"))
  end.

(** ** The environment and the server state *)

(** One invocation of a Composer function: its name, positional
    arguments and keyword arguments, in the order the call site gives. *)
Record Call : Type := MkCall {
  fn : string;
  posargs : list pyval;
  kwargs : pydict
}.

(** What the server does not define itself.  [composer history c] is
    what the Composer does on call [c] after the calls [history]: it
    returns a value or raises, an [Exception] or not.  [uuid4 n] is the
    text of the [n]-th identifier drawn from [uuid.uuid4].
    [new_TextStyleRange kw] is what the constructor of the data class
    [TextStyleRange] does on the keywords [kw]: it returns the object,
    or raises an [Exception] given by its class name and message.
    [format_exc e] is the text [traceback.format_exc()] gives while [e]
    is being handled; no property below depends on what it is.
    [json_nesting] is the number of containers inside the outermost one
    that [json.dumps] can enter before the interpreter's recursion
    limit is reached. *)
Record Env : Type := MkEnv {
  CAPCUT_AVAILABLE : bool;
  uuid4 : nat → string;
  composer : list Call → Call → outcome pyval;
  new_TextStyleRange : pydict → pyval + string * string;
  format_exc : exn → string;
  float_repr : float → string;
  json_nesting : nat
}.

(** [TextStyleRange(...)] on the keywords [kw]. *)
Definition TextStyleRange (env : Env) (kw : pydict) : outcome pyval :=
  match new_TextStyleRange env kw with
  | inl object => Returns object
  | inr (class, msg) => Raises (Exn class msg true)
  end.

(** The server instance: [self.drafts], and the two counters of the
    environment it has consumed (Composer calls made, uuids drawn). *)
Record State : Type := MkState {
  drafts : gmap string pydict;
  calls : list Call;
  uuids_drawn : nat
}.

(** [CapCutMCPServer.__init__] *)
Definition init : State := MkState ∅ [] 0.

(** Computations of the server: they read and update the state, and
    return or raise. *)
Definition M (A : Type) : Type := State → outcome A * State.

#[global] Instance M_ret : MRet M := fun A a st => (Returns a, st).
#[global] Instance M_bind : MBind M := fun A B f m st =>
  match m st with
  | (Returns a, st') => f a st'
  | (Raises e, st') => (Raises e, st')
  end.

Definition raise {A : Type} (e : exn) : M A := fun st => (Raises e, st).

Definition lift {A : Type} (o : outcome A) : M A := fun st => (o, st).

(** [try: body except Exception as e: handler(e)]: an exception that
    is not an instance of [Exception] is not caught. *)
Definition try_except {A : Type} (body : M A) (handler : exn → M A) : M A :=
  fun st =>
    match body st with
    | (Returns a, st') => (Returns a, st')
    | (Raises e, st') =>
        if exn_is_Exception e then handler e st' else (Raises e, st')
    end.

(** A call of the Composer function [f]; the call is recorded whether it
    returns or raises. *)
Definition invoke (env : Env) (f : string) (pos : list pyval) (kw : pydict)
  : M pyval :=
  fun st =>
    let c := MkCall f pos kw in
    (composer env (calls st) c,
     MkState (drafts st) (calls st ++ [c]) (uuids_drawn st)).

(** [str(uuid.uuid4())] *)
Definition fresh_uuid (env : Env) : M string :=
  fun st =>
    (Returns (uuid4 env (uuids_drawn st)),
     MkState (drafts st) (calls st) (S (uuids_drawn st))).

(** [self.drafts[draft_id] = session] *)
Definition drafts_setitem (draft_id : string) (session : pydict) : M unit :=
  fun st =>
    (Returns tt,
     MkState (<[draft_id := session]> (drafts st)) (calls st) (uuids_drawn st)).

(** ** Envelopes *)

Definition invalid_draft_id : pyval :=
  VDict [("success", VBool false); ("error", VStr "Invalid draft_id")].

Definition success_result (result : pyval) : pyval :=
  VDict [("success", VBool true); ("result", result)].

Definition exception_envelope (env : Env) (e : exn) : pyval :=
  VDict [("success", VBool false);
         ("error", VStr (exn_str e));
         ("traceback", VStr (format_exc env e))].

Definition unavailable : pyval :=
  VDict [("success", VBool false);
         ("error",
          VStr "CapCut modules not available. Please check installation.")].

Definition unknown_tool (name : string) : pyval :=
  VDict [("success", VBool false); ("error", VStr ("Unknown tool: " ++ name))].

(** ** The prologue shared by the eight draft-referencing tools

<<
    draft_id = args.get("draft_id")
    if not draft_id or draft_id not in self.drafts:
        return {"success": False, "error": "Invalid draft_id"}
    draft_folder = self.drafts[draft_id]["folder"]
>>
*)

(** [args.get]: defined on a [dict] only. *)
Definition args_dict (args : pyval) : outcome pydict :=
  match args with
  | VDict a => Returns a
  | v => Raises (AttributeError v "get")
  end.

(** [draft_id not in self.drafts]: a [list] or a [dict] cannot be hashed
    (the message is the one of CPython up to 3.13); the keys of the
    registry are strings, so no other value is a key. *)
Definition not_in_drafts (reg : gmap string pydict) (draft_id : pyval)
  : outcome bool :=
  match draft_id with
  | VStr s => Returns (bool_decide (reg !! s = None))
  | VList _ => Raises (TypeError "unhashable type: 'list'")
  | VDict _ => Raises (TypeError "unhashable type: 'dict'")
  | _ => Returns true
  end.

(** [not draft_id or draft_id not in self.drafts] *)
Definition draft_id_rejected (reg : gmap string pydict) (draft_id : pyval)
  : outcome bool :=
  if negb (truthy draft_id) then Returns true else not_in_drafts reg draft_id.

(** [self.drafts[draft_id]["folder"]] *)
Definition drafts_folder (reg : gmap string pydict) (draft_id : pyval)
  : outcome pyval :=
  match draft_id with
  | VStr s =>
      match reg !! s with
      | Some session => item session "folder"
      | None => Raises (KeyError s)
      end
  | v => Raises (TypeError ("unhashable type: '" ++ type_name v ++ "'"))
  end.

Inductive prologue : Type :=
| EarlyReturn (envelope : pyval)
| Resolved (args : pydict) (draft_id : pyval) (draft_folder : pyval).

Definition resolve_draft (arguments : pyval) : M prologue :=
  fun st =>
    (args ← args_dict arguments;
     let draft_id := get args "draft_id" VNone in
     rejected ← draft_id_rejected (drafts st) draft_id;
     if (rejected : bool) then Returns (EarlyReturn invalid_draft_id)
     else
       draft_folder ← drafts_folder (drafts st) draft_id;
       Returns (Resolved args draft_id draft_folder),
     st).

(** ** The tools of [CapCutMCPServer]

    Keyword arguments are evaluated left to right; the only expressions
    that can raise are the subscripts [args[k]] and the subtraction. *)

Definition _create_draft (env : Env) (arguments : pyval) : M pyval :=
  args ← lift (args_dict arguments);
  let width := get args "width" (VInt 1080) in
  let height := get args "height" (VInt 1920) in
  draft_id ← fresh_uuid env;
  draft_folder ← invoke env "get_or_create_draft"
                   [VStr draft_id; width; height] [];
  drafts_setitem draft_id
    [("folder", draft_folder); ("width", width); ("height", height)];;
  mret (VDict [("success", VBool true);
               ("draft_id", VStr draft_id);
               ("draft_folder", draft_folder);
               ("width", width);
               ("height", height)]).

Definition add_video_kwargs (draft_folder : pyval) (args : pydict)
  : outcome pydict :=
  video_url ← item args "video_url";
  Returns
    [("draft_folder", draft_folder);
     ("video_url", video_url);
     ("start", get args "start" (VInt 0));
     ("end", get args "end" VNone);
     ("target_start", get args "target_start" (VInt 0));
     ("width", get args "width" (VInt 1080));
     ("height", get args "height" (VInt 1920));
     ("transform_x", get args "transform_x" (VInt 0));
     ("transform_y", get args "transform_y" (VInt 0));
     ("scale_x", get args "scale_x" (VInt 1));
     ("scale_y", get args "scale_y" (VInt 1));
     ("speed", get args "speed" (VFloat 1.0));
     ("track_name", get args "track_name" (VStr "main"));
     ("volume", get args "volume" (VFloat 1.0));
     ("transition", get args "transition" VNone);
     ("transition_duration", get args "transition_duration" (VFloat 0.5));
     ("mask_type", get args "mask_type" VNone);
     ("background_blur", get args "background_blur" VNone)].

Definition _add_video (env : Env) (arguments : pyval) : M pyval :=
  p ← resolve_draft arguments;
  match p with
  | EarlyReturn envelope => mret envelope
  | Resolved args draft_id draft_folder =>
      kw ← lift (add_video_kwargs draft_folder args);
      result ← invoke env "add_video_track" [] kw;
      mret (success_result result)
  end.

Definition add_audio_kwargs (draft_folder : pyval) (args : pydict)
  : outcome pydict :=
  audio_url ← item args "audio_url";
  Returns
    [("draft_folder", draft_folder);
     ("audio_url", audio_url);
     ("start", get args "start" (VInt 0));
     ("end", get args "end" VNone);
     ("target_start", get args "target_start" (VInt 0));
     ("volume", get args "volume" (VFloat 1.0));
     ("speed", get args "speed" (VFloat 1.0));
     ("track_name", get args "track_name" (VStr "audio_main"));
     ("width", get args "width" (VInt 1080));
     ("height", get args "height" (VInt 1920))].

Definition _add_audio (env : Env) (arguments : pyval) : M pyval :=
  p ← resolve_draft arguments;
  match p with
  | EarlyReturn envelope => mret envelope
  | Resolved args draft_id draft_folder =>
      kw ← lift (add_audio_kwargs draft_folder args);
      result ← invoke env "add_audio_track" [] kw;
      mret (success_result result)
  end.

Definition add_image_kwargs (draft_folder : pyval) (args : pydict)
  : outcome pydict :=
  image_url ← item args "image_url";
  duration ← py_sub (get args "end" (VFloat 3.0)) (get args "start" (VInt 0));
  Returns
    [("draft_folder", draft_folder);
     ("image_url", image_url);
     ("start", get args "start" (VInt 0));
     ("duration", duration);
     ("width", get args "width" (VInt 1080));
     ("height", get args "height" (VInt 1920));
     ("transform_x", get args "transform_x" (VInt 0));
     ("transform_y", get args "transform_y" (VInt 0));
     ("scale_x", get args "scale_x" (VInt 1));
     ("scale_y", get args "scale_y" (VInt 1));
     ("track_name", get args "track_name" (VStr "main"))].

Definition _add_image (env : Env) (arguments : pyval) : M pyval :=
  p ← resolve_draft arguments;
  match p with
  | EarlyReturn envelope => mret envelope
  | Resolved args draft_id draft_folder =>
      kw ← lift (add_image_kwargs draft_folder args);
      result ← invoke env "add_image_impl" [] kw;
      mret (success_result result)
  end.

(** [for style in v]: the elements of a list, the characters of a
    string, the keys of a dict. *)
Definition iterate (v : pyval) : outcome (list pyval) :=
  match v with
  | VList l => Returns l
  | VStr s => Returns ((fun c => VStr (String c EmptyString)) <$> String.list_ascii_of_string s)
  | VDict d => Returns ((fun kv => VStr kv.1) <$> d)
  | v => Raises (TypeError ("'" ++ type_name v ++ "' object is not iterable"))
  end.

(** [TextStyleRange] called with the mapping [style] unpacked as its
    keyword arguments. *)
Definition make_style (env : Env) (style : pyval) : outcome pyval :=
  match style with
  | VDict kw => TextStyleRange env kw
  | v =>
      Raises (TypeError
        ("pyJianYingDraft.text_segment.TextStyleRange() argument after ** " ++
         "must be a mapping, not " ++ type_name v))
  end.

Fixpoint make_styles (env : Env) (styles : list pyval) : outcome (list pyval) :=
  match styles with
  | [] => Returns []
  | style :: rest =>
      x ← make_style env style;
      xs ← make_styles env rest;
      Returns (x :: xs)
  end.

(** The loop that fills [text_styles] in [_add_text]. *)
Definition build_text_styles (env : Env) (args : pydict)
  : outcome (list pyval) :=
  if dict_mem args "text_styles" then
    v ← item args "text_styles";
    styles ← iterate v;
    make_styles env styles
  else Returns [].

Definition add_text_kwargs (draft_folder : pyval) (args : pydict)
    (text_styles : list pyval) : outcome pydict :=
  text ← item args "text";
  start ← item args "start";
  end_ ← item args "end";
  start' ← item args "start";
  duration ← py_sub end_ start';
  Returns
    [("draft_folder", draft_folder);
     ("text", text);
     ("start", start);
     ("duration", duration);
     ("color", get args "font_color" (VStr "#ffffff"));
     ("font_size", get args "font_size" (VInt 24));
     ("track_name", VStr "text_main");
     ("width", get args "width" (VInt 1080));
     ("height", get args "height" (VInt 1920));
     ("text_styles",
      match text_styles with [] => VNone | _ => VList text_styles end);
     ("shadow_enabled", get args "shadow_enabled" (VBool false));
     ("shadow_color", get args "shadow_color" (VStr "#000000"));
     ("shadow_alpha", get args "shadow_alpha" (VFloat 0.8));
     ("shadow_angle", get args "shadow_angle" (VFloat 315.0));
     ("shadow_distance", get args "shadow_distance" (VFloat 5.0));
     ("shadow_smoothing", get args "shadow_smoothing" (VFloat 0.0));
     ("background_color", get args "background_color" VNone);
     ("background_alpha", get args "background_alpha" (VFloat 1.0));
     ("background_style", get args "background_style" (VInt 0));
     ("background_round_radius",
      get args "background_round_radius" (VFloat 0.0))].

Definition _add_text (env : Env) (arguments : pyval) : M pyval :=
  p ← resolve_draft arguments;
  match p with
  | EarlyReturn envelope => mret envelope
  | Resolved args draft_id draft_folder =>
      text_styles ← lift (build_text_styles env args);
      kw ← lift (add_text_kwargs draft_folder args text_styles);
      result ← invoke env "add_text_impl" [] kw;
      mret (success_result result)
  end.

Definition add_subtitle_kwargs (draft_folder : pyval) (args : pydict)
  : outcome pydict :=
  srt_path ← item args "srt_path";
  Returns
    [("draft_folder", draft_folder);
     ("srt_path", srt_path);
     ("track_name", get args "track_name" (VStr "subtitle"));
     ("time_offset", get args "time_offset" (VInt 0));
     ("font", get args "font" VNone);
     ("font_size", get args "font_size" (VFloat 8.0));
     ("font_color", get args "font_color" (VStr "#FFFFFF"));
     ("bold", get args "bold" (VBool false));
     ("italic", get args "italic" (VBool false));
     ("underline", get args "underline" (VBool false));
     ("border_width", get args "border_width" (VFloat 0.0));
     ("border_color", get args "border_color" (VStr "#000000"));
     ("background_color", get args "background_color" (VStr "#000000"));
     ("background_alpha", get args "background_alpha" (VFloat 0.0));
     ("transform_x", get args "transform_x" (VFloat 0.0));
     ("transform_y", get args "transform_y" (VFloat (-0.8)));
     ("width", get args "width" (VInt 1080));
     ("height", get args "height" (VInt 1920))].

Definition _add_subtitle (env : Env) (arguments : pyval) : M pyval :=
  p ← resolve_draft arguments;
  match p with
  | EarlyReturn envelope => mret envelope
  | Resolved args draft_id draft_folder =>
      kw ← lift (add_subtitle_kwargs draft_folder args);
      result ← invoke env "add_subtitle_impl" [] kw;
      mret (success_result result)
  end.

Definition add_effect_kwargs (draft_folder : pyval) (args : pydict)
  : outcome pydict :=
  effect_type ← item args "effect_type";
  duration ← py_sub (get args "end" (VFloat 3.0)) (get args "start" (VInt 0));
  Returns
    [("draft_folder", draft_folder);
     ("effect_type", effect_type);
     ("start", get args "start" (VInt 0));
     ("duration", duration);
     ("track_name", get args "track_name" (VStr "effect_01"));
     ("params", get args "params" (VList []));
     ("width", get args "width" (VInt 1080));
     ("height", get args "height" (VInt 1920))].

Definition _add_effect (env : Env) (arguments : pyval) : M pyval :=
  p ← resolve_draft arguments;
  match p with
  | EarlyReturn envelope => mret envelope
  | Resolved args draft_id draft_folder =>
      kw ← lift (add_effect_kwargs draft_folder args);
      result ← invoke env "add_effect_impl" [] kw;
      mret (success_result result)
  end.

Definition add_sticker_kwargs (draft_folder : pyval) (args : pydict)
  : outcome pydict :=
  sticker_url ← item args "sticker_url";
  duration ← py_sub (get args "end" (VFloat 3.0)) (get args "start" (VInt 0));
  Returns
    [("draft_folder", draft_folder);
     ("sticker_url", sticker_url);
     ("start", get args "start" (VInt 0));
     ("duration", duration);
     ("width", get args "width" (VInt 1080));
     ("height", get args "height" (VInt 1920));
     ("transform_x", get args "transform_x" (VInt 0));
     ("transform_y", get args "transform_y" (VInt 0));
     ("scale_x", get args "scale_x" (VInt 1));
     ("scale_y", get args "scale_y" (VInt 1));
     ("rotation", get args "rotation" (VInt 0));
     ("track_name", get args "track_name" (VStr "sticker_main"))].

Definition _add_sticker (env : Env) (arguments : pyval) : M pyval :=
  p ← resolve_draft arguments;
  match p with
  | EarlyReturn envelope => mret envelope
  | Resolved args draft_id draft_folder =>
      kw ← lift (add_sticker_kwargs draft_folder args);
      result ← invoke env "add_sticker_impl" [] kw;
      mret (success_result result)
  end.

Definition _save_draft (env : Env) (arguments : pyval) : M pyval :=
  p ← resolve_draft arguments;
  match p with
  | EarlyReturn envelope => mret envelope
  | Resolved args draft_id draft_folder =>
      result ← invoke env "save_draft_impl" []
                 [("draft_folder", draft_folder); ("draft_id", draft_id)];
      mret (success_result result)
  end.

(** The [if]/[elif] chain inside the [try] of [call_tool]. *)
Definition dispatch (env : Env) (name : string) (arguments : pyval) : M pyval :=
  if String.eqb name "create_draft" then _create_draft env arguments
  else if String.eqb name "add_video" then _add_video env arguments
  else if String.eqb name "add_audio" then _add_audio env arguments
  else if String.eqb name "add_image" then _add_image env arguments
  else if String.eqb name "add_text" then _add_text env arguments
  else if String.eqb name "add_subtitle" then _add_subtitle env arguments
  else if String.eqb name "add_effect" then _add_effect env arguments
  else if String.eqb name "add_sticker" then _add_sticker env arguments
  else if String.eqb name "save_draft" then _save_draft env arguments
  else mret (unknown_tool name).

Definition call_tool (env : Env) (name : string) (arguments : pyval) : M pyval :=
  if negb (CAPCUT_AVAILABLE env) then mret unavailable
  else
    try_except (dispatch env name arguments)
               (fun e => mret (exception_envelope env e)).

(** ** The tool catalog

    [TOOLS], without the [description] texts: for each tool its name,
    the properties of its input schema (name, JSON type, default) and
    the names the schema marks [required]. *)

Record Property : Type := MkProperty {
  prop_name : string;
  prop_type : string;
  prop_default : option pyval
}.

Record Tool : Type := MkTool {
  tool_name : string;
  tool_properties : list Property;
  tool_required : list string
}.

Definition TOOLS : list Tool :=
  [
  MkTool "create_draft"
      [
       MkProperty "width" "integer" (Some (VInt 1080));
       MkProperty "height" "integer" (Some (VInt 1920))
      ]
      [];
  MkTool "add_video"
      [
       MkProperty "video_url" "string" None;
       MkProperty "draft_id" "string" None;
       MkProperty "start" "number" (Some (VInt 0));
       MkProperty "end" "number" None;
       MkProperty "target_start" "number" (Some (VInt 0));
       MkProperty "width" "integer" (Some (VInt 1080));
       MkProperty "height" "integer" (Some (VInt 1920));
       MkProperty "transform_x" "number" (Some (VInt 0));
       MkProperty "transform_y" "number" (Some (VInt 0));
       MkProperty "scale_x" "number" (Some (VInt 1));
       MkProperty "scale_y" "number" (Some (VInt 1));
       MkProperty "speed" "number" (Some (VFloat 1.0));
       MkProperty "track_name" "string" (Some (VStr "main"));
       MkProperty "volume" "number" (Some (VFloat 1.0));
       MkProperty "transition" "string" None;
       MkProperty "transition_duration" "number" (Some (VFloat 0.5));
       MkProperty "mask_type" "string" None;
       MkProperty "background_blur" "integer" None
      ]
      ["video_url"];
  MkTool "add_audio"
      [
       MkProperty "audio_url" "string" None;
       MkProperty "draft_id" "string" None;
       MkProperty "start" "number" (Some (VInt 0));
       MkProperty "end" "number" None;
       MkProperty "target_start" "number" (Some (VInt 0));
       MkProperty "volume" "number" (Some (VFloat 1.0));
       MkProperty "speed" "number" (Some (VFloat 1.0));
       MkProperty "track_name" "string" (Some (VStr "audio_main"));
       MkProperty "width" "integer" (Some (VInt 1080));
       MkProperty "height" "integer" (Some (VInt 1920))
      ]
      ["audio_url"];
  MkTool "add_image"
      [
       MkProperty "image_url" "string" None;
       MkProperty "draft_id" "string" None;
       MkProperty "start" "number" (Some (VInt 0));
       MkProperty "end" "number" (Some (VFloat 3.0));
       MkProperty "width" "integer" (Some (VInt 1080));
       MkProperty "height" "integer" (Some (VInt 1920));
       MkProperty "transform_x" "number" (Some (VInt 0));
       MkProperty "transform_y" "number" (Some (VInt 0));
       MkProperty "scale_x" "number" (Some (VInt 1));
       MkProperty "scale_y" "number" (Some (VInt 1));
       MkProperty "track_name" "string" (Some (VStr "main"));
       MkProperty "intro_animation" "string" None;
       MkProperty "outro_animation" "string" None;
       MkProperty "transition" "string" None;
       MkProperty "mask_type" "string" None
      ]
      ["image_url"];
  MkTool "add_text"
      [
       MkProperty "text" "string" None;
       MkProperty "start" "number" None;
       MkProperty "end" "number" None;
       MkProperty "draft_id" "string" None;
       MkProperty "font_color" "string" (Some (VStr "#ffffff"));
       MkProperty "font_size" "integer" (Some (VInt 24));
       MkProperty "shadow_enabled" "boolean" (Some (VBool false));
       MkProperty "shadow_color" "string" (Some (VStr "#000000"));
       MkProperty "shadow_alpha" "number" (Some (VFloat 0.8));
       MkProperty "shadow_angle" "number" (Some (VFloat 315.0));
       MkProperty "shadow_distance" "number" (Some (VFloat 5.0));
       MkProperty "shadow_smoothing" "number" (Some (VFloat 0.0));
       MkProperty "background_color" "string" None;
       MkProperty "background_alpha" "number" (Some (VFloat 1.0));
       MkProperty "background_style" "integer" (Some (VInt 0));
       MkProperty "background_round_radius" "number" (Some (VFloat 0.0));
       MkProperty "text_styles" "array" None
      ]
      ["text"; "start"; "end"];
  MkTool "add_subtitle"
      [
       MkProperty "srt_path" "string" None;
       MkProperty "draft_id" "string" None;
       MkProperty "track_name" "string" (Some (VStr "subtitle"));
       MkProperty "time_offset" "number" (Some (VInt 0));
       MkProperty "font" "string" None;
       MkProperty "font_size" "number" (Some (VFloat 8.0));
       MkProperty "font_color" "string" (Some (VStr "#FFFFFF"));
       MkProperty "bold" "boolean" (Some (VBool false));
       MkProperty "italic" "boolean" (Some (VBool false));
       MkProperty "underline" "boolean" (Some (VBool false));
       MkProperty "border_width" "number" (Some (VFloat 0.0));
       MkProperty "border_color" "string" (Some (VStr "#000000"));
       MkProperty "background_color" "string" (Some (VStr "#000000"));
       MkProperty "background_alpha" "number" (Some (VFloat 0.0));
       MkProperty "transform_x" "number" (Some (VFloat 0.0));
       MkProperty "transform_y" "number" (Some (VFloat (-0.8)));
       MkProperty "width" "integer" (Some (VInt 1080));
       MkProperty "height" "integer" (Some (VInt 1920))
      ]
      ["srt_path"];
  MkTool "add_effect"
      [
       MkProperty "effect_type" "string" None;
       MkProperty "draft_id" "string" None;
       MkProperty "start" "number" (Some (VInt 0));
       MkProperty "end" "number" (Some (VFloat 3.0));
       MkProperty "track_name" "string" (Some (VStr "effect_01"));
       MkProperty "params" "array" None;
       MkProperty "width" "integer" (Some (VInt 1080));
       MkProperty "height" "integer" (Some (VInt 1920))
      ]
      ["effect_type"];
  MkTool "add_sticker"
      [
       MkProperty "sticker_url" "string" None;
       MkProperty "draft_id" "string" None;
       MkProperty "start" "number" (Some (VInt 0));
       MkProperty "end" "number" (Some (VFloat 3.0));
       MkProperty "width" "integer" (Some (VInt 1080));
       MkProperty "height" "integer" (Some (VInt 1920));
       MkProperty "transform_x" "number" (Some (VInt 0));
       MkProperty "transform_y" "number" (Some (VInt 0));
       MkProperty "scale_x" "number" (Some (VInt 1));
       MkProperty "scale_y" "number" (Some (VInt 1));
       MkProperty "rotation" "number" (Some (VInt 0));
       MkProperty "track_name" "string" (Some (VStr "sticker_main"))
      ]
      ["sticker_url"];
  MkTool "save_draft"
      [
       MkProperty "draft_id" "string" None
      ]
      ["draft_id"]
  ].

Definition get_tools : list Tool := TOOLS.

(** ** [json.dumps]

    A [str] is the sequence of its code points, here below 256, so no
    escape above [\u00ff] is produced.  Separators are the defaults
    [", "] and [": "]. *)

Definition hex_digit (n : N) : Ascii.ascii :=
  match n with
  | 0 => "0" | 1 => "1" | 2 => "2" | 3 => "3" | 4 => "4" | 5 => "5"
  | 6 => "6" | 7 => "7" | 8 => "8" | 9 => "9" | 10 => "a" | 11 => "b"
  | 12 => "c" | 13 => "d" | 14 => "e" | _ => "f"
  end%N%char.

(** ["\u00XX"] *)
Definition u_escape (n : N) : string :=
  "\u00" ++ String (hex_digit (n / 16)) (String (hex_digit (n mod 16)) EmptyString).

(** The double quote, code point 34. *)
Definition quote : Ascii.ascii := "034"%char.

Definition json_char (ensure_ascii : bool) (c : Ascii.ascii) : string :=
  let n := Ascii.N_of_ascii c in
  if (n =? 34)%N then String "\"%char (String quote EmptyString)
  else if (n =? 92)%N then "\\"
  else if (n =? 10)%N then "\n"
  else if (n =? 13)%N then "\r"
  else if (n =? 9)%N then "\t"
  else if (n =? 8)%N then "\b"
  else if (n =? 12)%N then "\f"
  else if (n <? 32)%N then u_escape n
  else if ensure_ascii && (126 <? n)%N then u_escape n
  else String c EmptyString.

Fixpoint json_chars (ensure_ascii : bool) (s : string) : string :=
  match s with
  | EmptyString => EmptyString
  | String c s' => json_char ensure_ascii c ++ json_chars ensure_ascii s'
  end.

Definition json_string (ensure_ascii : bool) (s : string) : string :=
  String quote (json_chars ensure_ascii s ++ String quote EmptyString).

Definition json_float (env : Env) (f : float) : string :=
  if PrimFloat.is_nan f then "NaN"
  else if PrimFloat.is_infinity f then
    (if PrimFloat.ltb f 0%float then "-Infinity" else "Infinity")
  else float_repr env f.

(** [int.__repr__]: CPython 3.11 and later refuse to convert an [int]
    of more than 4300 digits. *)
Definition json_int (z : Z) : outcome string :=
  if (4300 <? String.length (pretty (Z.abs z)))%nat
  then Raises (ValueError
         ("Exceeds the limit (4300 digits) for integer string conversion; " ++
          "use sys.set_int_max_str_digits() to increase the limit"))
  else Returns (pretty z).

(** [depth] is the number of containers that may still be entered. *)
Fixpoint json_encode (env : Env) (ensure_ascii : bool) (v : pyval)
    (depth : nat) {struct v} : outcome string :=
  match v with
  | VNone => Returns "null"
  | VBool b => Returns (if b then "true" else "false")
  | VInt z => json_int z
  | VFloat f => Returns (json_float env f)
  | VStr s => Returns (json_string ensure_ascii s)
  | VList l =>
      match depth with
      | O =>
          Raises (RecursionError
            "maximum recursion depth exceeded while encoding a JSON object")
      | S depth' =>
          parts ← (fix elements (l : list pyval) : outcome (list string) :=
                     match l with
                     | [] => Returns []
                     | x :: l' =>
                         sx ← json_encode env ensure_ascii x depth';
                         sl ← elements l';
                         Returns (sx :: sl)
                     end) l;
          Returns ("[" ++ String.concat ", " parts ++ "]")
      end
  | VDict d =>
      match depth with
      | O =>
          Raises (RecursionError
            "maximum recursion depth exceeded while encoding a JSON object")
      | S depth' =>
          parts ← (fix members (d : pydict) : outcome (list string) :=
                     match d with
                     | [] => Returns []
                     | (k, x) :: d' =>
                         sx ← json_encode env ensure_ascii x depth';
                         sd ← members d';
                         Returns
                           ((json_string ensure_ascii k ++ ": " ++ sx) :: sd)
                     end) d;
          Returns ("{" ++ String.concat ", " parts ++ "}")
      end
  | VObj _ =>
      Raises (TypeError "Object of type object is not JSON serializable")
  end.

(** [json.dumps(obj)] has [ensure_ascii=True].  The outermost container
    can always be entered. *)
Definition json_dumps (env : Env) (obj : pyval) (ensure_ascii : bool)
  : outcome string :=
  json_encode env ensure_ascii obj (S (json_nesting env)).

(** ** The transport adapters *)

Record TextContent : Type := MkTextContent {
  type : string;
  text : string
}.

(** [a or b] *)
Definition py_or (a b : pyval) : pyval := if truthy a then a else b.

(** The stdio handler, [mcp_server.py]. *)
Definition handle_call_tool (env : Env) (name : string) (arguments : pyval)
  : M (list TextContent) :=
  if String.eqb name "create_draft" then
    result ← call_tool env "create_draft" (py_or arguments (VDict []));
    t ← lift (json_dumps env result false);
    mret [MkTextContent "text" t]
  else if String.eqb name "add_video" then
    result ← call_tool env "add_video" (py_or arguments (VDict []));
    t ← lift (json_dumps env result false);
    mret [MkTextContent "text" t]
  else if String.eqb name "add_audio" then
    result ← call_tool env "add_audio" (py_or arguments (VDict []));
    t ← lift (json_dumps env result false);
    mret [MkTextContent "text" t]
  else if String.eqb name "add_image" then
    result ← call_tool env "add_image" (py_or arguments (VDict []));
    t ← lift (json_dumps env result false);
    mret [MkTextContent "text" t]
  else if String.eqb name "add_text" then
    result ← call_tool env "add_text" (py_or arguments (VDict []));
    t ← lift (json_dumps env result false);
    mret [MkTextContent "text" t]
  else if String.eqb name "add_subtitle" then
    result ← call_tool env "add_subtitle" (py_or arguments (VDict []));
    t ← lift (json_dumps env result false);
    mret [MkTextContent "text" t]
  else if String.eqb name "add_effect" then
    result ← call_tool env "add_effect" (py_or arguments (VDict []));
    t ← lift (json_dumps env result false);
    mret [MkTextContent "text" t]
  else if String.eqb name "add_sticker" then
    result ← call_tool env "add_sticker" (py_or arguments (VDict []));
    t ← lift (json_dumps env result false);
    mret [MkTextContent "text" t]
  else if String.eqb name "save_draft" then
    result ← call_tool env "save_draft" (py_or arguments (VDict []));
    t ← lift (json_dumps env result false);
    mret [MkTextContent "text" t]
  else
    t ← lift (json_dumps env
                (VDict [("error", VStr ("Unknown tool: " ++ name))]) true);
    mret [MkTextContent "text" t].

(** The SSE handler, [mcp_server_sse.py]. *)
Module mcp_server_sse.

Definition call_tool (env : Env) (name : string) (arguments : pyval)
  : M (list TextContent) :=
  result ← call_tool env name arguments;
  t ← lift (json_dumps env result false);
  mret [MkTextContent "text" t].

End mcp_server_sse.

(** ** The common shape of the draft-referencing tools *)

(** How a tool builds the keyword arguments of its Composer call from
    the resolved folder, the arguments and the draft id. *)
Definition builder : Type := pyval → pydict → pyval → outcome pydict.

(** The prologue, then one Composer call [f] on the keywords [build]
    gives, then the success envelope. *)
Definition draft_tool (env : Env) (f : string) (build : builder)
    (arguments : pyval) : M pyval :=
  p ← resolve_draft arguments;
  match p with
  | EarlyReturn envelope => mret envelope
  | Resolved args draft_id draft_folder =>
      kw ← lift (build draft_folder args draft_id);
      result ← invoke env f [] kw;
      mret (success_result result)
  end.

(** Tool name, Composer function and keyword builder of the eight
    branches of [dispatch] after [create_draft]. *)
Definition draft_tools (env : Env) : list (string * (string * builder)) :=
  [("add_video", ("add_video_track", fun folder args _ => add_video_kwargs folder args));
   ("add_audio", ("add_audio_track", fun folder args _ => add_audio_kwargs folder args));
   ("add_image", ("add_image_impl", fun folder args _ => add_image_kwargs folder args));
   ("add_text", ("add_text_impl",
                 fun folder args _ =>
                   ts ← build_text_styles env args;
                   add_text_kwargs folder args ts));
   ("add_subtitle", ("add_subtitle_impl", fun folder args _ => add_subtitle_kwargs folder args));
   ("add_effect", ("add_effect_impl", fun folder args _ => add_effect_kwargs folder args));
   ("add_sticker", ("add_sticker_impl", fun folder args _ => add_sticker_kwargs folder args));
   ("save_draft", ("save_draft_impl",
                   fun folder _ draft_id =>
                     Returns [("draft_folder", folder); ("draft_id", draft_id)]))].

(** The names of the draft-referencing tools. *)
Definition draft_tool_names : list string :=
  ["add_video"; "add_audio"; "add_image"; "add_text"; "add_subtitle";
   "add_effect"; "add_sticker"; "save_draft"].

(** The asset-add tools: every draft-referencing tool but [save_draft]. *)
Definition asset_tools : list string :=
  ["add_video"; "add_audio"; "add_image"; "add_text"; "add_subtitle";
   "add_effect"; "add_sticker"].

(** The arguments reference a draft of the registry: [draft_id] is a
    non-empty string that is a key of [self.drafts]. *)
Definition references_draft (st : State) (arguments : pyval) : bool :=
  match arguments with
  | VDict args =>
      match get args "draft_id" VNone with
      | VStr s => negb (String.eqb s EmptyString)
                  && bool_decide (is_Some (drafts st !! s))
      | _ => false
      end
  | _ => false
  end.

(** A value [dict] membership can be asked of. *)
Definition hashable (v : pyval) : bool :=
  match v with
  | VList _ | VDict _ => false
  | _ => true
  end.

(** The states a server instance goes through: the initial one, and the
    state after any [call_tool]. *)
Inductive reachable (env : Env) : State → Prop :=
| reach_init : reachable env init
| reach_call st name arguments :
    reachable env st → reachable env (call_tool env name arguments st).2.

(** A session as [_create_draft] stores it. *)
Definition session_shape (session : pydict) : Prop :=
  ∃ folder width height,
    session = [("folder", folder); ("width", width); ("height", height)].

(** ** A sample environment

    The Composer answers every call with a string naming the function;
    [faulty_env] raises on [add_audio_track] instead. *)
Definition sample_env : Env :=
  MkEnv true (fun n => "draft-" ++ pretty n)
        (fun _ c => Returns (VStr ("ok:" ++ fn c)))
        (fun kw => inl (VObj 0))
        (fun e => "Traceback (most recent call last): " ++ exn_class e)
        (fun _ => "0.0") 900.

Definition faulty_env : Env :=
  MkEnv true (fun n => "draft-" ++ pretty n)
        (fun _ c => if String.eqb (fn c) "add_audio_track"
                    then Raises (Exn "ConnectionError" "fetch failed" true)
                    else Returns (VStr ("ok:" ++ fn c)))
        (fun kw => inl (VObj 0))
        (fun e => "Traceback (most recent call last): " ++ exn_class e)
        (fun _ => "0.0") 900.

Definition offline_env : Env :=
  MkEnv false (fun n => "draft-" ++ pretty n)
        (fun _ c => Returns (VStr ("ok:" ++ fn c)))
        (fun kw => inl (VObj 0))
        (fun e => "Traceback (most recent call last): " ++ exn_class e)
        (fun _ => "0.0") 900.

(** A Composer whose [add_video_track] raises [KeyError('video_url')]. *)
Definition keyerror_env : Env :=
  MkEnv true (fun n => "draft-" ++ pretty n)
        (fun _ c => if String.eqb (fn c) "add_video_track"
                    then Raises (KeyError "video_url")
                    else Returns (VStr ("ok:" ++ fn c)))
        (fun kw => inl (VObj 0))
        (fun e => "Traceback (most recent call last): " ++ exn_class e)
        (fun _ => "0.0") 900.

(** The state after [create_draft(width=720, height=1280)] on a new
    server. *)
Definition one_draft : State :=
  (call_tool sample_env "create_draft"
     (VDict [("width", VInt 720); ("height", VInt 1280)]) init).2.

(** A computation that raises instances of [Exception] only. *)
Definition raises_Exception {A : Type} (o : outcome A) : Prop :=
  ∀ e, o = Raises e → exn_is_Exception e = true.

(** ** The runs of [dispatch]

    The four ways a run of [dispatch] ends: an [Exception] before any
    Composer call; an early [return] of an error envelope; a
    draft-referencing tool that made its Composer call; [create_draft]
    that made its Composer call. *)
Inductive dispatch_run (env : Env) (name : string) (arguments : pyval)
    (st : State) : outcome pyval * State → Prop :=
| run_raise e :
    exn_is_Exception e = true →
    dispatch_run env name arguments st (Raises e, st)
| run_early envelope :
    envelope = invalid_draft_id ∨ envelope = unknown_tool name →
    name ≠ "create_draft" →
    dispatch_run env name arguments st (Returns envelope, st)
| run_tool f build args s session folder kw :
    (name, (f, build)) ∈ draft_tools env →
    arguments = VDict args →
    get args "draft_id" VNone = VStr s → s ≠ EmptyString →
    drafts st !! s = Some session →
    dict_get session "folder" = Some folder →
    build folder args (VStr s) = Returns kw →
    dispatch_run env name arguments st
      (match composer env (calls st) (MkCall f [] kw) with
       | Returns result => Returns (success_result result)
       | Raises e => Raises e
       end,
       MkState (drafts st) (calls st ++ [MkCall f [] kw]) (uuids_drawn st))
| run_create args :
    name = "create_draft" →
    arguments = VDict args →
    let id := uuid4 env (uuids_drawn st) in
    let width := get args "width" (VInt 1080) in
    let height := get args "height" (VInt 1920) in
    let c := MkCall "get_or_create_draft" [VStr id; width; height] [] in
    dispatch_run env name arguments st
      (match composer env (calls st) c with
       | Raises e =>
           (Raises e,
            MkState (drafts st) (calls st ++ [c]) (S (uuids_drawn st)))
       | Returns folder =>
           (Returns (VDict [("success", VBool true);
                            ("draft_id", VStr id);
                            ("draft_folder", folder);
                            ("width", width);
                            ("height", height)]),
            MkState (<[id := [("folder", folder); ("width", width);
                              ("height", height)]]> (drafts st))
                    (calls st ++ [c]) (S (uuids_drawn st)))
       end).

(** ** The tool listings of the two adapters

    Both handlers build one [types.Tool] per entry of [get_tools()];
    [mk] stands for that constructor of the protocol library. *)
Fixpoint construct_all {A B : Type} (mk : A → outcome B) (l : list A)
  : outcome (list B) :=
  match l with
  | [] => Returns []
  | x :: l' =>
      y ← mk x;
      ys ← construct_all mk l';
      Returns (y :: ys)
  end.

(** The stdio handler, [mcp_server.py]. *)
Definition handle_list_tools {T : Type} (mk : Tool → outcome T)
  : outcome (list T) :=
  construct_all mk get_tools.

(** The SSE handler, [mcp_server_sse.py]. *)
Definition list_tools {T : Type} (mk : Tool → outcome T) : outcome (list T) :=
  construct_all mk get_tools.

(** The names the catalog declares. *)
Definition catalog_names : list string := tool_name <$> get_tools.

(** The Composer function each branch of [dispatch] calls. *)
Definition composer_function : list (string * string) :=
  [("create_draft", "get_or_create_draft");
   ("add_video", "add_video_track");
   ("add_audio", "add_audio_track");
   ("add_image", "add_image_impl");
   ("add_text", "add_text_impl");
   ("add_subtitle", "add_subtitle_impl");
   ("add_effect", "add_effect_impl");
   ("add_sticker", "add_sticker_impl");
   ("save_draft", "save_draft_impl")].

(** ** Arguments and keywords

    [keyword_of tool prop] is the keyword under which [tool] hands the
    argument [prop] to its Composer function when it hands it on as it
    is: not [draft_id], which selects the folder; not [text_styles],
    which is rebuilt; not [end] where a duration is computed from it;
    not the four options [_add_image] never reads; and [font_color]
    becomes [color] in [_add_text]. *)
Definition keyword_of (tool prop : string) : option string :=
  if String.eqb prop "draft_id" then None
  else if String.eqb prop "text_styles" then None
  else if String.eqb prop "end"
          && existsb (String.eqb tool)
               ["add_image"; "add_text"; "add_effect"; "add_sticker"]
  then None
  else if String.eqb tool "add_image"
          && existsb (String.eqb prop)
               ["intro_animation"; "outro_animation"; "transition"; "mask_type"]
  then None
  else if String.eqb tool "add_text" && String.eqb prop "font_color"
  then Some "color"
  else Some prop.

(** The value a tool uses for an absent argument: the default the
    catalog declares; where it declares none, [None], and the empty
    list for [params]. *)
Definition fallback (p : Property) : pyval :=
  match prop_default p with
  | Some d => d
  | None => if String.eqb (prop_name p) "params" then VList [] else VNone
  end.

(** Two argument dicts that agree on the keys [keys]. *)
Definition agree_on (keys : list string) (args args' : pydict) : Prop :=
  ∀ k, k ∈ keys → dict_get args k = dict_get args' k.

(** The arguments a tool reads: those its catalog entry declares, and
    for [add_text] also [width] and [height]. *)
Definition arguments_read (t : Tool) : list string :=
  (prop_name <$> tool_properties t)
  ++ (if String.eqb (tool_name t) "add_text" then ["width"; "height"] else []).

(** A Composer that returns an object [json.dumps] cannot serialize. *)
Definition opaque_env : Env :=
  MkEnv true (fun n => "draft-" ++ pretty n)
        (fun _ c => Returns (VObj 7))
        (fun kw => inl (VObj 0))
        (fun e => "Traceback (most recent call last): " ++ exn_class e)
        (fun _ => "0.0") 900.

(** Composers that fail: [exit_env] leaves the interpreter in
    [add_audio_track]; [full_disk_env] cannot create a draft folder;
    [interrupted_env] is interrupted while creating it. *)
Definition exit_env : Env :=
  MkEnv true (fun n => "draft-" ++ pretty n)
        (fun _ c => if String.eqb (fn c) "add_audio_track"
                    then Raises (Exn "SystemExit" "1" false)
                    else Returns (VStr ("ok:" ++ fn c)))
        (fun kw => inl (VObj 0))
        (fun e => "Traceback (most recent call last): " ++ exn_class e)
        (fun _ => "0.0") 900.



(** * Properties *)

(** ** Subtraction *)

Lemma py_sub_int (x y : Z) : py_sub (VInt x) (VInt y) = Returns (VInt (x - y)).
Proof. reflexivity. Qed.

Lemma py_sub_float (x y : float) :
  py_sub (VFloat x) (VFloat y) = Returns (VFloat (x - y)).
Proof. reflexivity. Qed.

Example py_sub_default : py_sub (VFloat 3.0) (VInt 0) = Returns (VFloat 3.0).
Proof. reflexivity. Qed.

(** ** The prologue *)

Lemma rejected_false_inv reg v :
  draft_id_rejected reg v = Returns false →
  ∃ s, v = VStr s ∧ s ≠ EmptyString ∧ is_Some (reg !! s).
Proof.
  unfold draft_id_rejected, not_in_drafts.
  destruct (truthy v) eqn:Ht; simpl; [|discriminate].
  destruct v; try discriminate.
  intros [= Hd]. exists s. split; [done|]. split.
  - intros ->. discriminate.
  - apply bool_decide_eq_false in Hd.
    destruct (reg !! s); [eauto|done].
Qed.

Lemma rejected_false reg s session :
  s ≠ EmptyString → reg !! s = Some session →
  draft_id_rejected reg (VStr s) = Returns false.
Proof.
  intros Hs Hr. unfold draft_id_rejected, not_in_drafts. simpl.
  destruct (String.eqb_spec s EmptyString) as [|_]; [done|]. simpl.
  rewrite Hr. rewrite bool_decide_eq_false_2; done.
Qed.

Lemma references_draft_true st arguments :
  references_draft st arguments = true →
  ∃ args s session,
    arguments = VDict args ∧ get args "draft_id" VNone = VStr s ∧
    s ≠ EmptyString ∧ drafts st !! s = Some session.
Proof.
  unfold references_draft. destruct arguments as [| | | | | |args|]; try done.
  destruct (get args "draft_id" VNone) eqn:Hg; try done.
  intros [Hs Hk]%andb_true_iff.
  apply bool_decide_eq_true in Hk as [session Hk].
  exists args, s, session. repeat split; try done.
  intros ->. discriminate.
Qed.

(** ** What the server raises itself

    Subscripts, the subtraction, the membership test and the
    [text_styles] loop raise instances of [Exception]; only a Composer
    function can raise anything else. *)

Lemma item_raises args k : raises_Exception (item args k).
Proof. unfold item. intros e. by destruct (dict_get args k); intros [= <-]. Qed.

Lemma py_sub_raises a b : raises_Exception (py_sub a b).
Proof.
  unfold py_sub, int_to_float. intros e.
  destruct (as_number a) as [[x|x]|], (as_number b) as [[y|y]|]; simpl;
    try (by intros [= <-]);
    by destruct (PrimFloat.is_infinity _); simpl; intros [= <-].
Qed.

Lemma make_styles_raises env l : raises_Exception (make_styles env l).
Proof.
  induction l as [|style l IH]; intros e; [done|]. simpl.
  assert (raises_Exception (make_style env style)) as Hstyle.
  { intros e'. unfold make_style, TextStyleRange.
    destruct style; try (by intros [= <-]).
    by destruct (new_TextStyleRange env d) as [|[]]; intros [= <-]. }
  destruct (make_style env style) as [x|e'] eqn:Hx; simpl.
  - destruct (make_styles env l) as [xs|e'] eqn:Hxs; simpl; [done|].
    intros [= <-]. by apply IH.
  - intros [= <-]. by apply Hstyle.
Qed.

Lemma build_text_styles_raises env args :
  raises_Exception (build_text_styles env args).
Proof.
  unfold build_text_styles. intros e.
  destruct (dict_mem args "text_styles"); [|done].
  destruct (item args "text_styles") as [v|e'] eqn:Hv; simpl;
    [|intros [= <-]; by eapply item_raises].
  destruct (iterate v) as [styles|e'] eqn:Hi; simpl.
  - apply make_styles_raises.
  - intros [= <-]. unfold iterate in Hi. by destruct v; simplify_eq.
Qed.

Ltac builder_raises :=
  repeat match goal with
  | |- context [item ?args ?k] =>
      let E := fresh "Hitem" in
      destruct (item args k) eqn:E; simpl;
      [|intros [= <-]; by eapply item_raises]
  | |- context [py_sub ?a ?b] =>
      let E := fresh "Hsub" in
      destruct (py_sub a b) eqn:E; simpl;
      [|intros [= <-]; by eapply py_sub_raises]
  end;
  try done.

Lemma draft_tools_raise env name f build :
  (name, (f, build)) ∈ draft_tools env →
  ∀ folder args id, raises_Exception (build folder args id).
Proof.
  unfold draft_tools. intros Hin folder args id e.
  repeat (apply elem_of_cons in Hin as [Heq|Hin];
          [injection Heq as -> -> ->|]);
    [..|by apply elem_of_nil in Hin];
    unfold add_video_kwargs, add_audio_kwargs, add_image_kwargs,
      add_subtitle_kwargs, add_effect_kwargs, add_sticker_kwargs;
    try builder_raises.
  destruct (build_text_styles env args) as [ts|e'] eqn:Hts; simpl.
  - unfold add_text_kwargs. builder_raises.
  - intros [= <-]. by eapply build_text_styles_raises.
Qed.

Lemma prologue_raises reg args :
  raises_Exception (draft_id_rejected reg (get args "draft_id" VNone)) ∧
  raises_Exception (drafts_folder reg (get args "draft_id" VNone)).
Proof.
  unfold draft_id_rejected, not_in_drafts, drafts_folder. split; intros e.
  - destruct (negb (truthy _)); [done|].
    by destruct (get args "draft_id" VNone); intros [= <-].
  - destruct (get args "draft_id" VNone); try (by intros [= <-]).
    destruct (reg !! s); [apply item_raises|by intros [= <-]].
Qed.

(** ** One lemma for the eight draft-referencing tools *)

Ltac unfold_M :=
  unfold draft_tool, resolve_draft, try_except, invoke, lift, raise,
    fresh_uuid, drafts_setitem, mbind, M_bind, mret, M_ret,
    outcome_bind, outcome_ret in *.

(** With a draft resolved, the tool raises what the keyword builder
    raises, or makes exactly one Composer call and wraps its result. *)
Lemma draft_tool_resolved env f build args s session folder st :
  get args "draft_id" VNone = VStr s → s ≠ EmptyString →
  drafts st !! s = Some session → dict_get session "folder" = Some folder →
  draft_tool env f build (VDict args) st =
    match build folder args (VStr s) with
    | Raises e => (Raises e, st)
    | Returns kw =>
        (match composer env (calls st) (MkCall f [] kw) with
         | Returns result => Returns (success_result result)
         | Raises e => Raises e
         end,
         MkState (drafts st) (calls st ++ [MkCall f [] kw]) (uuids_drawn st))
    end.
Proof.
  intros Hg Hs Hr Hf. unfold_M. simpl. rewrite Hg.
  rewrite (rejected_false _ _ _ Hs Hr). simpl.
  rewrite Hr. unfold item. rewrite Hf.
  destruct (build folder args (VStr s)) as [kw|e]; [|done].
  by destruct (composer env (calls st) (MkCall f [] kw)).
Qed.

(** Without one, the state is left as it was. *)
Lemma draft_tool_unresolved env f build arguments st :
  references_draft st arguments = false →
  (draft_tool env f build arguments st).2 = st.
Proof.
  intros Hn. unfold_M.
  destruct arguments as [| | | | | |args|]; try done. simpl.
  destruct (draft_id_rejected (drafts st) (get args "draft_id" VNone))
    as [[|]|e] eqn:Hrej; try done.
  exfalso. apply rejected_false_inv in Hrej as (s & Hg & Hs & Hk).
  unfold references_draft in Hn. rewrite Hg in Hn.
  destruct (String.eqb_spec s EmptyString); [done|]. simpl in Hn.
  by rewrite bool_decide_eq_true_2 in Hn.
Qed.

(** A [draft_id] that is falsy, or hashable and not a key, gives the
    [Invalid draft_id] envelope. *)
Lemma draft_tool_rejected env f build args st :
  draft_id_rejected (drafts st) (get args "draft_id" VNone) = Returns true →
  draft_tool env f build (VDict args) st = (Returns invalid_draft_id, st).
Proof. intros H. unfold_M. simpl. by rewrite H. Qed.

(** Every run of a tool: it raises or returns [Invalid draft_id] with
    the state untouched, or a draft was resolved and exactly one
    Composer call was made. *)
Lemma draft_tool_cases env f build arguments st :
  (∀ folder args id, raises_Exception (build folder args id)) →
  (∃ e, exn_is_Exception e = true ∧
        draft_tool env f build arguments st = (Raises e, st)) ∨
  draft_tool env f build arguments st = (Returns invalid_draft_id, st) ∨
  ∃ args s session folder kw,
    arguments = VDict args ∧ get args "draft_id" VNone = VStr s ∧
    s ≠ EmptyString ∧ drafts st !! s = Some session ∧
    dict_get session "folder" = Some folder ∧
    build folder args (VStr s) = Returns kw ∧
    draft_tool env f build arguments st =
      (match composer env (calls st) (MkCall f [] kw) with
       | Returns result => Returns (success_result result)
       | Raises e => Raises e
       end,
       MkState (drafts st) (calls st ++ [MkCall f [] kw]) (uuids_drawn st)).
Proof.
  intros Hbuild.
  destruct arguments as [| | | | | |args|];
    try (left; eexists; split; [|reflexivity]; reflexivity).
  destruct (draft_id_rejected (drafts st) (get args "draft_id" VNone))
    as [[|]|e] eqn:Hrej.
  - right. left. by apply draft_tool_rejected.
  - apply rejected_false_inv in Hrej as (s & Hg & Hs & [session Hr]).
    destruct (dict_get session "folder") as [folder|] eqn:Hf.
    + pose proof (draft_tool_resolved env f build _ _ _ _ st Hg Hs Hr Hf) as Hrun.
      destruct (build folder args (VStr s)) as [kw|e] eqn:Hb.
      * right. right. exists args, s, session, folder, kw. by rewrite Hb.
      * left. exists e. split; [by eapply Hbuild|done].
    + left. exists (KeyError "folder"). split; [done|].
      unfold_M. simpl. rewrite Hg.
      rewrite (rejected_false _ _ _ Hs Hr). simpl.
      rewrite Hr. unfold item. by rewrite Hf.
  - left. exists e. split; [by eapply (proj1 (prologue_raises _ _))|].
    unfold_M. simpl. by rewrite Hrej.
Qed.

Lemma app_singleton_neq {A} (l : list A) (x : A) : l ≠ (l ++ [x])%list.
Proof.
  intros H. apply (f_equal length) in H. rewrite length_app in H.
  simpl in H. lia.
Qed.

(** ** [dispatch] by cases on the tool name *)

Lemma dispatch_draft_tool env name f build arguments st :
  (name, (f, build)) ∈ draft_tools env →
  dispatch env name arguments st = draft_tool env f build arguments st.
Proof.
  unfold draft_tools. intros Hin.
  repeat (apply elem_of_cons in Hin as [[= -> -> ->]|Hin]; [try reflexivity|]).
  - unfold dispatch, _add_text. simpl. unfold_M.
    destruct arguments as [| | | | | |args|]; try done. simpl.
    destruct (draft_id_rejected _ _) as [[|]|]; try done. simpl.
    destruct (drafts_folder _ _); try done. simpl.
    destruct (build_text_styles env args); try done. 
  - by apply elem_of_nil in Hin.
Qed.

Lemma dispatch_cases env name :
  name = "create_draft" ∨
  (∃ f build, (name, (f, build)) ∈ draft_tools env) ∨
  ((name ∉ (draft_tools env).*1) ∧ name ≠ "create_draft" ∧
   ∀ arguments st,
     dispatch env name arguments st = (Returns (unknown_tool name), st)).
Proof.
  unfold dispatch, draft_tools.
  destruct (String.eqb_spec name "create_draft"); [by left|].
  right.
  repeat match goal with
  | |- context [String.eqb name ?s] =>
      destruct (String.eqb_spec name s);
      [left; subst; eexists _, _;
       repeat first [apply list_elem_of_here | apply list_elem_of_further]|]
  end.
  right. split; [|split; [done|reflexivity]].
  simpl. rewrite !not_elem_of_cons. repeat split; try done.
  apply not_elem_of_nil.
Qed.

(** ** [create_draft] *)

Lemma create_draft_run env args st :
  let id := uuid4 env (uuids_drawn st) in
  let width := get args "width" (VInt 1080) in
  let height := get args "height" (VInt 1920) in
  let c := MkCall "get_or_create_draft" [VStr id; width; height] [] in
  _create_draft env (VDict args) st =
    match composer env (calls st) c with
    | Raises e =>
        (Raises e,
         MkState (drafts st) (calls st ++ [c]) (S (uuids_drawn st)))
    | Returns folder =>
        (Returns (VDict [("success", VBool true);
                         ("draft_id", VStr id);
                         ("draft_folder", folder);
                         ("width", width);
                         ("height", height)]),
         MkState (<[id := [("folder", folder); ("width", width);
                           ("height", height)]]> (drafts st))
                 (calls st ++ [c]) (S (uuids_drawn st)))
    end.
Proof.
  unfold _create_draft. unfold_M. simpl.
  by destruct (composer env (calls st) _).
Qed.

Lemma create_draft_not_dict env arguments st :
  (∀ args, arguments ≠ VDict args) →
  _create_draft env arguments st = (Raises (AttributeError arguments "get"), st).
Proof.
  intros Hn. unfold _create_draft. unfold_M.
  destruct arguments; try done. by destruct (Hn d).
Qed.

Lemma dispatch_create_draft env arguments st :
  dispatch env "create_draft" arguments st = _create_draft env arguments st.
Proof. reflexivity. Qed.

(** ** What one call does *)

Lemma draft_tools_not_create env f build :
  ("create_draft", (f, build)) ∉ draft_tools env.
Proof.
  unfold draft_tools. intros Hin.
  repeat (apply elem_of_cons in Hin as [[=]|Hin]).
  by apply elem_of_nil in Hin.
Qed.

Lemma dispatch_runs env name arguments st :
  dispatch_run env name arguments st (dispatch env name arguments st).
Proof.
  destruct (dispatch_cases env name) as [->|[(f & build & Hin)|(_ & Hne & Hu)]].
  - rewrite dispatch_create_draft.
    assert ((∃ args, arguments = VDict args) ∨ ∀ args, arguments ≠ VDict args)
      as [[args ->]|Hn] by (destruct arguments; eauto).
    + rewrite create_draft_run. by apply run_create.
    + rewrite create_draft_not_dict by done. by apply run_raise.
  - rewrite (dispatch_draft_tool _ _ _ _ _ _ Hin).
    destruct (draft_tool_cases env f build arguments st
                (draft_tools_raise _ _ _ _ Hin))
      as [(e & He & ->)|[->|(args & s & session & folder & kw
                      & Ha & Hg & Hs & Hr & Hf & Hb & ->)]].
    + by apply run_raise.
    + apply run_early; [by left|].
      intros ->. by apply draft_tools_not_create in Hin.
    + by eapply run_tool.
  - rewrite Hu. apply run_early; [by right|done].
Qed.

Lemma call_tool_unfold env name arguments st :
  call_tool env name arguments st =
    if CAPCUT_AVAILABLE env then
      match dispatch env name arguments st with
      | (Returns envelope, st') => (Returns envelope, st')
      | (Raises e, st') =>
          if exn_is_Exception e
          then (Returns (exception_envelope env e), st')
          else (Raises e, st')
      end
    else (Returns unavailable, st).
Proof. unfold call_tool, try_except. by destruct (CAPCUT_AVAILABLE env). Qed.

Ltac close_step :=
  simpl; repeat split;
  first [ done | by left | by right | by right; eexists | by intros ? ].

(** After [call_tool]: the registry is as before, the uuid counter moved
    by at most one and at most one Composer call was made; or
    [create_draft] succeeded and stored its session. *)
Lemma call_tool_step env name arguments st :
  let r := call_tool env name arguments st in
  (drafts r.2 = drafts st ∧
   (name ≠ "create_draft" → uuids_drawn r.2 = uuids_drawn st) ∧
   (uuids_drawn r.2 = uuids_drawn st ∨ uuids_drawn r.2 = S (uuids_drawn st)) ∧
   (calls r.2 = calls st ∨ ∃ c, calls r.2 = (calls st ++ [c])%list))
  ∨
  (name = "create_draft" ∧ CAPCUT_AVAILABLE env = true ∧
   ∃ args folder,
     arguments = VDict args ∧
     let id := uuid4 env (uuids_drawn st) in
     let width := get args "width" (VInt 1080) in
     let height := get args "height" (VInt 1920) in
     let c := MkCall "get_or_create_draft" [VStr id; width; height] [] in
     composer env (calls st) c = Returns folder ∧
     r = (Returns (VDict [("success", VBool true);
                          ("draft_id", VStr id);
                          ("draft_folder", folder);
                          ("width", width);
                          ("height", height)]),
          MkState (<[id := [("folder", folder); ("width", width);
                            ("height", height)]]> (drafts st))
                  (calls st ++ [c]) (S (uuids_drawn st)))).
Proof.
  intros r. subst r. rewrite call_tool_unfold.
  destruct (CAPCUT_AVAILABLE env) eqn:Hflag; [|left; close_step].
  destruct (dispatch_runs env name arguments st)
    as [e ->|envelope _ _|f build args s session folder kw Hin _ _ _ _ _ _
        |args -> -> id width height c].
  - left. close_step.
  - left. close_step.
  - left. destruct (composer env (calls st) _) as [?|e];
      [|destruct (exn_is_Exception e)]; simpl; repeat split;
      first [ done | by left | by right; eexists ].
  - destruct (composer env (calls st) c) as [folder|e] eqn:Hc.
    + right. split; [done|]. split; [done|]. by exists args, folder.
    + left. destruct (exn_is_Exception e); close_step.
Qed.

(** ** The registry *)

(** The keys of a reachable registry are identifiers already drawn. *)
Lemma reachable_keys env st :
  reachable env st →
  ∀ k, is_Some (drafts st !! k) → ∃ i, i < uuids_drawn st ∧ k = uuid4 env i.
Proof.
  induction 1 as [|st name arguments Hreach IH]; intros k.
  - simpl. rewrite lookup_empty. by intros [? ?].
  - destruct (call_tool_step env name arguments st)
      as [(-> & _ & [-> | ->] & _)|(_ & _ & args & folder & _ & _ & ->)].
    + apply IH.
    + intros (i & Hi & ->)%IH. exists i. split; [lia|done].
    + simpl. intros [session [[<- _]|[_ Hk]]%lookup_insert_Some].
      * exists (uuids_drawn st). split; [lia|done].
      * destruct (IH k) as (i & Hi & ->); [by eexists|].
        exists i. split; [lia|done].
Qed.

(** When [uuid4] never repeats an identifier, the next one is new to
    every registry the server reaches. *)
Lemma reachable_fresh env st :
  Inj (=) (=) (uuid4 env) →
  reachable env st →
  drafts st !! uuid4 env (uuids_drawn st) = None.
Proof.
  intros Hinj Hreach.
  destruct (drafts st !! uuid4 env (uuids_drawn st)) eqn:Hk; [|done].
  destruct (reachable_keys env st Hreach (uuid4 env (uuids_drawn st)))
    as (i & Hi & Heq); [by eexists|].
  apply Hinj in Heq. lia.
Qed.

(** C10.  The registry is changed only by a successful [create_draft],
    which adds exactly one entry under the generated id; every other
    call, whether it succeeds, fails or raises, leaves the registry as
    it was; and no entry is removed or overwritten.  The generated id is
    new to the registry, as [uuid.uuid4] promises. *)
Theorem registry_frame env name arguments st :
  drafts st !! uuid4 env (uuids_drawn st) = None →
  let r := call_tool env name arguments st in
  (name ≠ "create_draft" → drafts r.2 = drafts st) ∧
  (drafts r.2 = drafts st ∨
   name = "create_draft" ∧
   ∃ args folder,
     arguments = VDict args ∧
     let id := uuid4 env (uuids_drawn st) in
     let width := get args "width" (VInt 1080) in
     let height := get args "height" (VInt 1920) in
     r.1 = Returns (VDict [("success", VBool true);
                           ("draft_id", VStr id);
                           ("draft_folder", folder);
                           ("width", width);
                           ("height", height)]) ∧
     drafts r.2 = <[id := [("folder", folder); ("width", width);
                           ("height", height)]]> (drafts st) ∧
     size (drafts r.2) = S (size (drafts st))) ∧
  (∀ k session,
     drafts st !! k = Some session → drafts r.2 !! k = Some session) ∧
  (∀ envelope,
     r.1 = Returns (VDict envelope) →
     dict_get envelope "success" = Some (VBool false) →
     drafts r.2 = drafts st) ∧
  (∀ e, r.1 = Raises e → drafts r.2 = drafts st) ∧
  (∀ envelope,
     name = "create_draft" →
     r.1 = Returns (VDict envelope) →
     dict_get envelope "success" = Some (VBool true) →
     let id := uuid4 env (uuids_drawn st) in
     ∃ session,
       dict_get envelope "draft_id" = Some (VStr id) ∧
       drafts st !! id = None ∧
       drafts r.2 !! id = Some session ∧
       drafts r.2 = <[id := session]> (drafts st) ∧
       dom (drafts r.2) = {[id]} ∪ dom (drafts st) ∧
       size (drafts r.2) = S (size (drafts st))).
Proof.
  intros Hfresh r.
  destruct (call_tool_step env name arguments st)
    as [(Hd & _)|(-> & _ & args & folder & -> & Hc & Hr)]; fold r in Hd || fold r in Hr.
  - split; [done|]. split; [by left|].
    split; [intros k session; by rewrite Hd|].
    split; [done|]. split; [done|].
    intros envelope -> Hret Hs. exfalso. subst r. revert Hd Hret Hs.
    rewrite call_tool_unfold.
    destruct (CAPCUT_AVAILABLE env); [|by intros _ [= <-]].
    rewrite dispatch_create_draft.
    assert ((∃ args, arguments = VDict args) ∨ ∀ args, arguments ≠ VDict args)
      as [[args ->]|Hn] by (destruct arguments; eauto).
    + rewrite create_draft_run.
      destruct (composer env (calls st) _) as [folder|e]; simpl.
      * intros Hd _ _. apply (f_equal (lookup (uuid4 env (uuids_drawn st)))) in Hd.
        by rewrite lookup_insert_eq, Hfresh in Hd.
      * destruct (exn_is_Exception e); simpl; [by intros _ [= <-]|done].
    + rewrite create_draft_not_dict by done. simpl. by intros _ [= <-].
  - rewrite Hr. simpl. split; [done|]. split.
    + right. split; [done|]. exists args, folder.
      split; [done|]. split; [done|]. split; [done|].
      by apply map_size_insert_None.
    + split.
      * intros k session Hk. rewrite lookup_insert_ne; [done|].
        intros <-. by rewrite Hfresh in Hk.
      * split; [by intros envelope [= <-]|]. split; [done|].
        intros envelope _ [= <-] _. eexists.
        split; [done|]. split; [done|].
        split; [by rewrite lookup_insert_eq|]. split; [done|].
        split; [by rewrite dom_insert_L|by apply map_size_insert_None].
Qed.

Lemma registry_frame_witness :
  let r := call_tool sample_env "create_draft" (VDict [("width", VInt 640)])
             one_draft in
  ∃ session,
    dict_get [("success", VBool true); ("draft_id", VStr "draft-1");
              ("draft_folder", VStr "ok:get_or_create_draft");
              ("width", VInt 640); ("height", VInt 1920)] "draft_id"
      = Some (VStr "draft-1") ∧
    drafts one_draft !! "draft-1" = None ∧
    drafts r.2 !! "draft-1" = Some session ∧
    drafts r.2 = <["draft-1" := session]> (drafts one_draft) ∧
    dom (drafts r.2) = {["draft-1"]} ∪ dom (drafts one_draft) ∧
    size (drafts r.2) = S (size (drafts one_draft)).
Proof.
  pose proof (registry_frame sample_env "create_draft"
                (VDict [("width", VInt 640)]) one_draft eq_refl) as H.
  destruct H as (_ & _ & _ & _ & _ & H).
  exact (H _ eq_refl eq_refl eq_refl).
Defined.




(** ** The envelope *)

Lemma dispatch_returns_envelope env name arguments st v st' :
  dispatch env name arguments st = (Returns v, st') →
  ∃ envelope b, v = VDict envelope ∧ dict_get envelope "success" = Some (VBool b).
Proof.
  intros Hd. pose proof (dispatch_runs env name arguments st) as Hrun.
  rewrite Hd in Hrun. inversion Hrun as
    [|envelope [->| ->] _|f build args s session folder kw _ _ _ _ _ _ _ Hc
     |args _ _ id width height c Hc]; subst.
  - by eexists _, _.
  - by eexists _, _.
  - destruct (composer env (calls st) _); simplify_eq. by eexists _, _.
  - destruct (composer env (calls st) _); simplify_eq. by eexists _, _.
Qed.





(** A Composer fault on [add_audio], then a successful [add_video] on
    the same server. *)
Example fault_then_success :
  let st1 := (call_tool faulty_env "create_draft" (VDict []) init).2 in
  let r2 := call_tool faulty_env "add_audio"
              (VDict [("draft_id", VStr "draft-0"); ("audio_url", VStr "a.mp3")])
              st1 in
  let r3 := call_tool faulty_env "add_video"
              (VDict [("draft_id", VStr "draft-0"); ("video_url", VStr "v.mp4")])
              r2.2 in
  r2.1 = Returns (VDict [("success", VBool false);
                         ("error", VStr "fetch failed");
                         ("traceback",
                          VStr "Traceback (most recent call last): ConnectionError")]) ∧
  r3.1 = Returns (VDict [("success", VBool true);
                         ("result", VStr "ok:add_video_track")]).
Proof. split; reflexivity. Qed.

(** ** Calls that reference no draft *)

Lemma call_tool_state env name arguments st :
  (call_tool env name arguments st).2 =
    if CAPCUT_AVAILABLE env then (dispatch env name arguments st).2 else st.
Proof.
  rewrite call_tool_unfold. destruct (CAPCUT_AVAILABLE env); [|done].
  destruct (dispatch env name arguments st) as [[?|e] ?]; [done|].
  by destruct (exn_is_Exception e).
Qed.

Lemma draft_tool_names_spec env name :
  name ∈ draft_tool_names ↔ ∃ f build, (name, (f, build)) ∈ draft_tools env.
Proof.
  change draft_tool_names with (draft_tools env).*1.
  rewrite list_elem_of_fmap. split.
  - intros ([n [f build]] & -> & Hin). by exists f, build.
  - intros (f & build & Hin). by exists (name, (f, build)).
Qed.

Lemma unreferenced_rejected st args :
  references_draft st (VDict args) = false →
  truthy (get args "draft_id" VNone) = false
  ∨ hashable (get args "draft_id" VNone) = true →
  draft_id_rejected (drafts st) (get args "draft_id" VNone) = Returns true.
Proof.
  unfold references_draft, draft_id_rejected, not_in_drafts.
  destruct (get args "draft_id" VNone) as [| | | |s| | |] eqn:Hg;
    intros Hn [Ht|Hh]; simpl in *; try rewrite Ht; try done;
    try (by destruct (truthy _)).
  - by destruct b.
  - by destruct (negb _).
  - by destruct (negb _).
  - destruct (negb (String.eqb s EmptyString)); [|done]. simpl in *.
    apply bool_decide_eq_false in Hn.
    rewrite bool_decide_eq_true_2; [done|].
    destruct (drafts st !! s); [|done]. by destruct Hn.
Qed.

(** C1, as the code has it.  A call of a tool other than [create_draft]
    whose [draft_id] is absent, falsy or not a key of the registry makes
    no Composer call and leaves the registry, and the whole state, as it
    was.  When the Composer modules were imported, the tool is one of
    the eight draft-referencing tools and the [draft_id] is falsy or
    hashable, the call returns exactly the [Invalid draft_id] envelope. *)
Theorem invalid_draft_id_rejected env name arguments st :
  name ≠ "create_draft" →
  references_draft st arguments = false →
  (call_tool env name arguments st).2 = st ∧
  (CAPCUT_AVAILABLE env = true →
   name ∈ draft_tool_names →
   ∀ args, arguments = VDict args →
     dict_get args "draft_id" = None
     ∨ truthy (get args "draft_id" VNone) = false
     ∨ hashable (get args "draft_id" VNone) = true →
     (call_tool env name arguments st).1 = Returns invalid_draft_id).
Proof.
  intros Hne Hn. split.
  - rewrite call_tool_state. destruct (CAPCUT_AVAILABLE env); [|done].
    destruct (dispatch_cases env name) as [->|[(f & build & Hin)|(_ & _ & Hu)]].
    + done.
    + rewrite (dispatch_draft_tool _ _ _ _ _ _ Hin).
      by apply draft_tool_unresolved.
    + by rewrite Hu.
  - intros Hflag [f [build Hin]]%(draft_tool_names_spec env) args -> Hv.
    rewrite call_tool_unfold, Hflag, (dispatch_draft_tool _ _ _ _ _ _ Hin).
    rewrite draft_tool_rejected; [done|].
    apply unreferenced_rejected; [done|].
    destruct Hv as [Habs|[Ht|Hh]]; [left|by left|by right].
    unfold get. by rewrite Habs.
Qed.

Lemma invalid_draft_id_rejected_witness :
  call_tool sample_env "add_video"
    (VDict [("draft_id", VStr "missing"); ("video_url", VStr "x.mp4")])
    one_draft
  = (Returns (VDict [("success", VBool false);
                     ("error", VStr "Invalid draft_id")]),
     one_draft).
Proof.
  pose proof (invalid_draft_id_rejected sample_env "add_video"
    (VDict [("draft_id", VStr "missing"); ("video_url", VStr "x.mp4")])
    one_draft) as H.
  destruct H as [Hst Henv]; [discriminate|reflexivity|].
  rewrite (surjective_pairing (call_tool _ _ _ _)), Hst.
  assert ("add_video" ∈ draft_tool_names) as Hin by apply list_elem_of_here.
  rewrite (Henv eq_refl Hin _ eq_refl (or_intror (or_intror eq_refl))).
  reflexivity.
Defined.

(** C1 as stated fails in three ways.  A [draft_id] that is a non-empty
    list is not a key of the registry, yet [draft_id not in self.drafts]
    raises [TypeError] and the envelope is the one of the exception
    handler.  A name outside the catalog is a name other than
    [create_draft], and gets [Unknown tool].  When the Composer modules
    could not be imported every call gets the unavailable-modules
    envelope. *)
Lemma invalid_draft_id_counterexample :
  let r1 := call_tool sample_env "add_video"
              (VDict [("draft_id", VList [VInt 1]); ("video_url", VStr "x.mp4")])
              one_draft in
  let r2 := call_tool sample_env "foo" (VDict []) one_draft in
  let r3 := call_tool offline_env "add_video" (VDict []) init in
  (r1.1 = Returns (VDict [("success", VBool false);
                          ("error", VStr "unhashable type: 'list'");
                          ("traceback",
                           VStr "Traceback (most recent call last): TypeError")])
   ∧ r1.1 ≠ Returns invalid_draft_id) ∧
  (r2.1 = Returns (VDict [("success", VBool false);
                          ("error", VStr "Unknown tool: foo")])
   ∧ r2.1 ≠ Returns invalid_draft_id) ∧
  (r3.1 = Returns (VDict [("success", VBool false);
                          ("error", VStr "CapCut modules not available. Please check installation.")])
   ∧ r3.1 ≠ Returns invalid_draft_id).
Proof. repeat split; try reflexivity; discriminate. Qed.

(** ** Calls that reach the Composer *)

(** A call of a tool other than [create_draft] that made a Composer
    call: a draft was resolved, the keywords are those the tool's
    builder gives, and the envelope wraps what the Composer did. *)
Lemma composer_call_made env name arguments st c :
  name ≠ "create_draft" →
  calls (call_tool env name arguments st).2 = (calls st ++ [c])%list →
  ∃ f build args s session folder kw,
    (name, (f, build)) ∈ draft_tools env ∧
    arguments = VDict args ∧
    get args "draft_id" VNone = VStr s ∧ s ≠ EmptyString ∧
    drafts st !! s = Some session ∧
    dict_get session "folder" = Some folder ∧
    build folder args (VStr s) = Returns kw ∧
    c = MkCall f [] kw ∧
    call_tool env name arguments st =
      (match composer env (calls st) c with
       | Returns result => Returns (success_result result)
       | Raises e => if exn_is_Exception e
                     then Returns (exception_envelope env e) else Raises e
       end,
       MkState (drafts st) (calls st ++ [c]) (uuids_drawn st)).
Proof.
  intros Hne. rewrite call_tool_unfold.
  destruct (CAPCUT_AVAILABLE env);
    [|intros H; by apply app_singleton_neq in H].
  destruct (dispatch_runs env name arguments st)
    as [e' ->|envelope _ _|f build args s session folder kw Hin -> Hg Hs Hr Hf Hb
        |args -> _ id width height c0]; [| | |done].
  - intros H. by apply app_singleton_neq in H.
  - intros H. by apply app_singleton_neq in H.
  - intros Hcalls. exists f, build, args, s, session, folder, kw.
    repeat (split; [done|]).
    assert (c = MkCall f [] kw) as ->.
    { destruct (composer env (calls st) _) as [?|e0];
        [|destruct (exn_is_Exception e0)]; simpl in Hcalls;
        by apply app_inj_tail in Hcalls as [_ <-]. }
    split; [done|].
    destruct (composer env (calls st) _) as [?|e0]; [done|].
    by destruct (exn_is_Exception e0).
Qed.

(** With a draft resolved and the keywords built, the call is made. *)
Lemma call_tool_resolved env name f build args s session folder kw st :
  CAPCUT_AVAILABLE env = true →
  (name, (f, build)) ∈ draft_tools env →
  get args "draft_id" VNone = VStr s → s ≠ EmptyString →
  drafts st !! s = Some session → dict_get session "folder" = Some folder →
  build folder args (VStr s) = Returns kw →
  call_tool env name (VDict args) st =
    (match composer env (calls st) (MkCall f [] kw) with
     | Returns result => Returns (success_result result)
     | Raises e => if exn_is_Exception e
                   then Returns (exception_envelope env e) else Raises e
     end,
     MkState (drafts st) (calls st ++ [MkCall f [] kw]) (uuids_drawn st)).
Proof.
  intros Hflag Hin Hg Hs Hr Hf Hb.
  rewrite call_tool_unfold, Hflag, (dispatch_draft_tool _ _ _ _ _ _ Hin).
  rewrite (draft_tool_resolved _ _ _ _ _ _ _ _ Hg Hs Hr Hf), Hb.
  destruct (composer env (calls st) _) as [?|e0]; [done|].
  by destruct (exn_is_Exception e0).
Qed.

(** ** Durations *)

(** The three tools that pass a [duration], with their Composer
    function and the argument they require. *)
Lemma duration_tools_in env name f key :
  (name, f, key) ∈ [("add_image", "add_image_impl", "image_url");
                    ("add_effect", "add_effect_impl", "effect_type");
                    ("add_sticker", "add_sticker_impl", "sticker_url")] →
  ∃ build,
    (name, (f, build)) ∈ draft_tools env ∧
    ∀ folder args id url d,
      dict_get args key = Some url →
      py_sub (get args "end" (VFloat 3.0)) (get args "start" (VInt 0))
        = Returns d →
      ∃ kw, build folder args id = Returns kw ∧
            dict_get kw "start" = Some (get args "start" (VInt 0)) ∧
            dict_get kw "duration" = Some d.
Proof.
  intros Hin.
  repeat (apply elem_of_cons in Hin as [[= -> -> ->]|Hin]);
    [| | |by apply elem_of_nil in Hin];
    (eexists; split;
     [repeat first [apply list_elem_of_here | apply list_elem_of_further]|]);
    intros folder args id url d Hurl Hd.
  - unfold add_image_kwargs, item. rewrite Hurl. simpl. rewrite Hd. simpl.
    by eexists.
  - unfold add_effect_kwargs, item. rewrite Hurl. simpl. rewrite Hd. simpl.
    by eexists.
  - unfold add_sticker_kwargs, item. rewrite Hurl. simpl. rewrite Hd. simpl.
    by eexists.
Qed.

(** C4.  For [add_image], [add_effect] and [add_sticker] on a draft of
    the registry, the Composer function is called with [duration] equal
    to [end - start], where [start] defaults to [0] and [end] to [3.0];
    the difference of two integers is their exact difference, of two
    floats their binary64 difference, whatever its sign: no duration is
    rejected. *)
Theorem duration_is_end_minus_start
    env name f key args s session folder url d st :
  CAPCUT_AVAILABLE env = true →
  (name, f, key) ∈ [("add_image", "add_image_impl", "image_url");
                    ("add_effect", "add_effect_impl", "effect_type");
                    ("add_sticker", "add_sticker_impl", "sticker_url")] →
  get args "draft_id" VNone = VStr s → s ≠ EmptyString →
  drafts st !! s = Some session → dict_get session "folder" = Some folder →
  dict_get args key = Some url →
  py_sub (get args "end" (VFloat 3.0)) (get args "start" (VInt 0)) = Returns d →
  (∃ kw,
     calls (call_tool env name (VDict args) st).2
       = (calls st ++ [MkCall f [] kw])%list ∧
     dict_get kw "start" = Some (get args "start" (VInt 0)) ∧
     dict_get kw "duration" = Some d) ∧
  (∀ x y, get args "end" (VFloat 3.0) = VInt x →
          get args "start" (VInt 0) = VInt y → d = VInt (x - y)) ∧
  (∀ x y, get args "end" (VFloat 3.0) = VFloat x →
          get args "start" (VInt 0) = VFloat y → d = VFloat (x - y)).
Proof.
  intros Hflag Hin Hg Hs Hr Hf Hurl Hd.
  destruct (duration_tools_in env _ _ _ Hin) as (build & Hb & Hkw).
  destruct (Hkw folder args (VStr s) url d Hurl Hd) as (kw & Hbuild & Hst & Hdur).
  split; [|split].
  - exists kw.
    by rewrite (call_tool_resolved _ _ _ _ _ _ _ _ _ _ Hflag Hb Hg Hs Hr Hf Hbuild).
  - intros x y Hx Hy. rewrite Hx, Hy in Hd. by injection Hd as <-.
  - intros x y Hx Hy. rewrite Hx, Hy in Hd. by injection Hd as <-.
Qed.

Lemma duration_is_end_minus_start_witness :
  ∃ kw,
    calls (call_tool sample_env "add_image"
             (VDict [("draft_id", VStr "draft-0"); ("image_url", VStr "x.png");
                     ("start", VInt 5); ("end", VInt 2)]) one_draft).2
      = (calls one_draft ++ [MkCall "add_image_impl" [] kw])%list ∧
    dict_get kw "start" = Some (VInt 5) ∧
    dict_get kw "duration" = Some (VInt (-3)).
Proof.
  refine (proj1 (duration_is_end_minus_start sample_env
    "add_image" "add_image_impl" "image_url"
    [("draft_id", VStr "draft-0"); ("image_url", VStr "x.png");
     ("start", VInt 5); ("end", VInt 2)]
    "draft-0"
    [("folder", VStr "ok:get_or_create_draft");
     ("width", VInt 720); ("height", VInt 1280)]
    (VStr "ok:get_or_create_draft") (VStr "x.png") (VInt (-3)) one_draft
    eq_refl _ eq_refl _ eq_refl eq_refl eq_refl eq_refl)).
  - apply list_elem_of_here.
  - discriminate.
Defined.

(** ** Width and height *)

Lemma asset_kwargs_width_height env name f build folder args id kw :
  name ∈ asset_tools →
  (name, (f, build)) ∈ draft_tools env →
  build folder args id = Returns kw →
  dict_get kw "width" = Some (get args "width" (VInt 1080)) ∧
  dict_get kw "height" = Some (get args "height" (VInt 1920)).
Proof.
  intros Hasset Hin. unfold draft_tools in Hin.
  repeat (apply elem_of_cons in Hin as [[= -> -> ->]|Hin]);
    [| | | | | | | |by apply elem_of_nil in Hin].
  - unfold add_video_kwargs. destruct (item args _); [|done]. by intros [= <-].
  - unfold add_audio_kwargs. destruct (item args _); [|done]. by intros [= <-].
  - unfold add_image_kwargs. destruct (item args _); [|done]. simpl.
    destruct (py_sub _ _); [|done]. by intros [= <-].
  - destruct (build_text_styles env args); [|done]. simpl.
    unfold add_text_kwargs.
    destruct (item args "text"); [|done]. simpl.
    destruct (item args "start"); [|done]. simpl.
    destruct (item args "end"); [|done]. simpl.
    destruct (py_sub _ _); [|done]. by intros [= <-].
  - unfold add_subtitle_kwargs. destruct (item args _); [|done]. by intros [= <-].
  - unfold add_effect_kwargs. destruct (item args _); [|done]. simpl.
    destruct (py_sub _ _); [|done]. by intros [= <-].
  - unfold add_sticker_kwargs. destruct (item args _); [|done]. simpl.
    destruct (py_sub _ _); [|done]. by intros [= <-].
  - exfalso. unfold asset_tools in Hasset.
    repeat (apply elem_of_cons in Hasset as [[=]|Hasset]).
    by apply elem_of_nil in Hasset.
Qed.

(** C5, as the code has it.  Whenever an asset-add tool calls the
    Composer, the [width] and [height] it passes are the caller's when
    the arguments give them and the constants [1080] and [1920] when
    they do not; the session of the draft is not consulted. *)
Theorem width_height_defaults env name args st c :
  name ∈ asset_tools →
  calls (call_tool env name (VDict args) st).2 = (calls st ++ [c])%list →
  dict_get (kwargs c) "width" = Some (get args "width" (VInt 1080)) ∧
  dict_get (kwargs c) "height" = Some (get args "height" (VInt 1920)) ∧
  (dict_get args "width" = None → dict_get (kwargs c) "width" = Some (VInt 1080)) ∧
  (dict_get args "height" = None → dict_get (kwargs c) "height" = Some (VInt 1920)) ∧
  (∀ w, dict_get args "width" = Some w → dict_get (kwargs c) "width" = Some w) ∧
  (∀ h, dict_get args "height" = Some h → dict_get (kwargs c) "height" = Some h).
Proof.
  intros Hasset Hcalls.
  assert (name ≠ "create_draft") as Hne.
  { intros ->. unfold asset_tools in Hasset.
    repeat (apply elem_of_cons in Hasset as [[=]|Hasset]).
    by apply elem_of_nil in Hasset. }
  destruct (composer_call_made _ _ _ _ _ Hne Hcalls)
    as (f & build & args' & s & session & folder & kw
        & Hin & [= <-] & _ & _ & _ & _ & Hb & -> & _).
  destruct (asset_kwargs_width_height _ _ _ _ _ _ _ _ Hasset Hin Hb) as [Hw Hh].
  simpl. rewrite Hw, Hh. unfold get.
  repeat split; try done.
  - by intros ->.
  - by intros ->.
  - by intros w ->.
  - by intros h ->.
Qed.

Lemma width_height_defaults_witness :
  dict_get
    [("draft_folder", VStr "ok:get_or_create_draft");
     ("audio_url", VStr "a.mp3"); ("start", VInt 0); ("end", VNone);
     ("target_start", VInt 0); ("volume", VFloat 1.0); ("speed", VFloat 1.0);
     ("track_name", VStr "audio_main");
     ("width", VInt 1080); ("height", VInt 1920)] "width"
  = Some (VInt 1080).
Proof.
  refine (proj1 (width_height_defaults sample_env "add_audio"
    [("draft_id", VStr "draft-0"); ("audio_url", VStr "a.mp3")] one_draft
    (MkCall "add_audio_track" []
       [("draft_folder", VStr "ok:get_or_create_draft");
        ("audio_url", VStr "a.mp3"); ("start", VInt 0); ("end", VNone);
        ("target_start", VInt 0); ("volume", VFloat 1.0); ("speed", VFloat 1.0);
        ("track_name", VStr "audio_main");
        ("width", VInt 1080); ("height", VInt 1920)]) _ eq_refl)).
  apply list_elem_of_further, list_elem_of_here.
Defined.

(** C5 as stated fails: the draft was created 720 by 1280, [add_video]
    gives neither [width] nor [height], and the Composer receives 1080
    and 1920. *)
Lemma width_height_counterexample :
  let r := call_tool sample_env "add_video"
             (VDict [("draft_id", VStr "draft-0"); ("video_url", VStr "x.mp4")])
             one_draft in
  ∃ session c,
    drafts one_draft !! "draft-0" = Some session ∧
    dict_get session "width" = Some (VInt 720) ∧
    dict_get session "height" = Some (VInt 1280) ∧
    calls r.2 = (calls one_draft ++ [c])%list ∧
    fn c = "add_video_track" ∧
    dict_get (kwargs c) "width" = Some (VInt 1080) ∧
    dict_get (kwargs c) "height" = Some (VInt 1920) ∧
    dict_get (kwargs c) "width" ≠ dict_get session "width" ∧
    dict_get (kwargs c) "height" ≠ dict_get session "height".
Proof.
  eexists _, _. split; [reflexivity|]. split; [reflexivity|].
  split; [reflexivity|]. split; [reflexivity|].
  repeat split; try reflexivity; discriminate.
Qed.

(** ** Sessions *)

(** The sessions of a reachable state are the ones [_create_draft]
    stored. *)
Lemma reachable_sessions env st :
  reachable env st →
  ∀ k session, drafts st !! k = Some session → session_shape session.
Proof.
  induction 1 as [|st name arguments Hreach IH]; intros k session.
  - simpl. by rewrite lookup_empty.
  - destruct (call_tool_step env name arguments st)
      as [(-> & _)|(_ & _ & args & folder & _ & _ & ->)]; [by apply IH|].
    simpl. intros [[<- <-]|[_ Hk]]%lookup_insert_Some.
    + by eexists _, _, _.
    + by eapply IH.
Qed.

(** C6, as the code has it.  A session carries no lifecycle state: in
    every state a server reaches, a session is the mapping of [folder],
    [width] and [height] that [create_draft] stored, it has no [state]
    entry, and no asset-add or [save_draft] call changes it. *)
Theorem sessions_carry_no_state env st k session :
  reachable env st →
  drafts st !! k = Some session →
  (∃ folder width height,
     session = [("folder", folder); ("width", width); ("height", height)]) ∧
  dict_get session "state" = None ∧
  (∀ name arguments,
     name ≠ "create_draft" →
     drafts (call_tool env name arguments st).2 !! k = Some session).
Proof.
  intros Hreach Hk.
  destruct (reachable_sessions env st Hreach k session Hk)
    as (folder & width & height & ->).
  split; [by eexists _, _, _|]. split; [done|].
  intros name arguments Hne.
  destruct (call_tool_step env name arguments st)
    as [(-> & _)|(-> & _)]; done.
Qed.

Lemma sessions_carry_no_state_witness :
  dict_get [("folder", VStr "ok:get_or_create_draft");
            ("width", VInt 720); ("height", VInt 1280)] "state" = None.
Proof.
  refine (proj1 (proj2 (sessions_carry_no_state sample_env one_draft "draft-0"
    [("folder", VStr "ok:get_or_create_draft");
     ("width", VInt 720); ("height", VInt 1280)] _ eq_refl))).
  apply reach_call, reach_init.
Defined.

(** C6 as stated fails: the session [create_draft] stores has no
    lifecycle state, and it is the same after an [add_video] and a
    [save_draft] that both succeed. *)
Lemma lifecycle_counterexample :
  let session := [("folder", VStr "ok:get_or_create_draft");
                  ("width", VInt 720); ("height", VInt 1280)] in
  let r2 := call_tool sample_env "add_video"
              (VDict [("draft_id", VStr "draft-0"); ("video_url", VStr "x.mp4")])
              one_draft in
  let r3 := call_tool sample_env "save_draft"
              (VDict [("draft_id", VStr "draft-0")]) r2.2 in
  drafts one_draft !! "draft-0" = Some session ∧
  dict_get session "state" = None ∧
  r2.1 = Returns (success_result (VStr "ok:add_video_track")) ∧
  drafts r2.2 !! "draft-0" = Some session ∧
  r3.1 = Returns (success_result (VStr "ok:save_draft_impl")) ∧
  drafts r3.2 !! "draft-0" = Some session.
Proof. repeat split; reflexivity. Qed.

(** ** Success envelopes *)

(** C7, as the code has it.  The success envelope of a draft-referencing
    tool is exactly [success] and the [result] the Composer returned; it
    has no [draft_id] entry. *)
Theorem success_envelope_shape env name arguments st envelope :
  name ∈ draft_tool_names →
  (call_tool env name arguments st).1 = Returns (VDict envelope) →
  dict_get envelope "success" = Some (VBool true) →
  ∃ c result,
    calls (call_tool env name arguments st).2 = (calls st ++ [c])%list ∧
    composer env (calls st) c = Returns result ∧
    envelope = [("success", VBool true); ("result", result)] ∧
    dict_get envelope "draft_id" = None.
Proof.
  intros [f0 [build0 Hin0]]%(draft_tool_names_spec env).
  rewrite call_tool_unfold.
  destruct (CAPCUT_AVAILABLE env); [|by intros [= <-]].
  destruct (dispatch_runs env name arguments st)
    as [e' ->|envelope' [->| ->] _|f build args s session folder kw _ _ _ _ _ _ _
        |args -> _ id width height c0]; simpl.
  - by intros [= <-].
  - by intros [= <-].
  - by intros [= <-].
  - destruct (composer env (calls st) (MkCall f [] kw)) as [result|e] eqn:Hc;
      [|destruct (exn_is_Exception e)]; simpl; [|by intros [= <-]|done].
    intros [= <-] _. by exists (MkCall f [] kw), result.
  - by apply draft_tools_not_create in Hin0.
Qed.

Lemma success_envelope_shape_witness :
  ∃ c result,
    calls (call_tool sample_env "save_draft"
             (VDict [("draft_id", VStr "draft-0")]) one_draft).2
      = (calls one_draft ++ [c])%list ∧
    composer sample_env (calls one_draft) c = Returns result ∧
    [("success", VBool true); ("result", VStr "ok:save_draft_impl")]
      = [("success", VBool true); ("result", result)] ∧
    dict_get [("success", VBool true); ("result", VStr "ok:save_draft_impl")]
      "draft_id" = None.
Proof.
  refine (success_envelope_shape sample_env "save_draft"
    (VDict [("draft_id", VStr "draft-0")]) one_draft
    [("success", VBool true); ("result", VStr "ok:save_draft_impl")]
    _ eq_refl eq_refl).
  repeat first [apply list_elem_of_here | apply list_elem_of_further].
Defined.

(** C7 as stated fails: [add_video] and [save_draft] succeed on a draft
    of the registry and their envelopes have no [draft_id]. *)
Lemma success_envelope_counterexample :
  let r1 := call_tool sample_env "add_video"
              (VDict [("draft_id", VStr "draft-0"); ("video_url", VStr "x.mp4")])
              one_draft in
  let r2 := call_tool sample_env "save_draft"
              (VDict [("draft_id", VStr "draft-0")]) one_draft in
  ∃ e1 e2,
    r1.1 = Returns (VDict e1) ∧
    e1 = [("success", VBool true); ("result", VStr "ok:add_video_track")] ∧
    dict_get e1 "draft_id" = None ∧
    r2.1 = Returns (VDict e2) ∧
    e2 = [("success", VBool true); ("result", VStr "ok:save_draft_impl")] ∧
    dict_get e2 "draft_id" = None.
Proof. eexists _, _. repeat split; reflexivity. Qed.

(** ** Required arguments *)

Ltac in_list :=
  repeat first [apply list_elem_of_here | apply list_elem_of_further].

(** The keyword builder of a tool raises when an argument its catalog
    entry requires is absent: [KeyError] of an absent required argument,
    or for [add_text] the exception of the [text_styles] loop, which
    runs first. *)
Lemma required_missing env t field folder args id :
  t ∈ TOOLS → field ∈ tool_required t → field ≠ "draft_id" →
  dict_get args field = None →
  ∃ f build e,
    (tool_name t, (f, build)) ∈ draft_tools env ∧
    build folder args id = Raises e ∧
    (tool_name t ≠ "add_text" → e = KeyError field) ∧
    ((∃ field', field' ∈ tool_required t ∧ dict_get args field' = None ∧
                e = KeyError field')
     ∨ (tool_name t = "add_text" ∧ build_text_styles env args = Raises e)).
Proof.
  intros Ht Hfield Hne Hmiss. unfold TOOLS in Ht.
  repeat (apply elem_of_cons in Ht as [->|Ht]);
    [| | | | | | | | |by apply elem_of_nil in Ht]; simpl in Hfield |- *.
  - by apply elem_of_nil in Hfield.
  - apply list_elem_of_singleton in Hfield as ->.
    eexists _, _, _. split; [in_list|]. simpl.
    unfold add_video_kwargs, item. rewrite Hmiss. simpl.
    split; [done|]. split; [done|]. left. eexists. split; [in_list|done].
  - apply list_elem_of_singleton in Hfield as ->.
    eexists _, _, _. split; [in_list|]. simpl.
    unfold add_audio_kwargs, item. rewrite Hmiss. simpl.
    split; [done|]. split; [done|]. left. eexists. split; [in_list|done].
  - apply list_elem_of_singleton in Hfield as ->.
    eexists _, _, _. split; [in_list|]. simpl.
    unfold add_image_kwargs, item. rewrite Hmiss. simpl.
    split; [done|]. split; [done|]. left. eexists. split; [in_list|done].
  - destruct (build_text_styles env args) as [ts|e] eqn:Hts.
    + assert (∃ field', field' ∈ ["text"; "start"; "end"] ∧
                dict_get args field' = None ∧
                add_text_kwargs folder args ts = Raises (KeyError field'))
        as (field' & Hin' & Hmiss' & Hraise).
      { unfold add_text_kwargs, item.
        destruct (dict_get args "text") eqn:Htext; simpl;
          [|exists "text"; split; [in_list|done]].
        destruct (dict_get args "start") eqn:Hstart; simpl;
          [|exists "start"; split; [in_list|done]].
        destruct (dict_get args "end") eqn:Hend; simpl;
          [|exists "end"; split; [in_list|done]].
        exfalso.
        repeat (apply elem_of_cons in Hfield as [->|Hfield]); try congruence.
        by apply elem_of_nil in Hfield. }
      eexists _, _, _. split; [in_list|]. simpl. rewrite Hts. simpl.
      split; [exact Hraise|]. split; [done|]. left. by exists field'.
    + eexists _, _, _. split; [in_list|]. simpl. rewrite Hts. simpl.
      split; [done|]. split; [done|]. by right.
  - apply list_elem_of_singleton in Hfield as ->.
    eexists _, _, _. split; [in_list|]. simpl.
    unfold add_subtitle_kwargs, item. rewrite Hmiss. simpl.
    split; [done|]. split; [done|]. left. eexists. split; [in_list|done].
  - apply list_elem_of_singleton in Hfield as ->.
    eexists _, _, _. split; [in_list|]. simpl.
    unfold add_effect_kwargs, item. rewrite Hmiss. simpl.
    split; [done|]. split; [done|]. left. eexists. split; [in_list|done].
  - apply list_elem_of_singleton in Hfield as ->.
    eexists _, _, _. split; [in_list|]. simpl.
    unfold add_sticker_kwargs, item. rewrite Hmiss. simpl.
    split; [done|]. split; [done|]. left. eexists. split; [in_list|done].
  - by apply list_elem_of_singleton in Hfield as ->.
Qed.

(** A tool that requires an argument is one of the eight
    draft-referencing tools. *)
Lemma required_draft_tool env t field :
  t ∈ TOOLS → field ∈ tool_required t →
  ∃ f build, (tool_name t, (f, build)) ∈ draft_tools env.
Proof.
  intros Ht Hfield. unfold TOOLS in Ht.
  repeat (apply elem_of_cons in Ht as [->|Ht]);
    [| | | | | | | | |by apply elem_of_nil in Ht]; simpl in Hfield |- *;
    [by apply elem_of_nil in Hfield|..];
    eexists _, _; in_list.
Qed.

(** C3, as the code has it.  Of the arguments the catalog requires the
    code checks [draft_id] only.  A call without [draft_id] is answered
    by the test at the head of the tool with the [Invalid draft_id]
    envelope: nothing is raised, the envelope has no [traceback] and is
    not the envelope of the exception handler; this is all that
    [save_draft] requires.  Any other required argument is read with
    [args[...]] and not checked: when it is absent and the [draft_id] is
    not in the registry the answer is [Invalid draft_id] again; when the
    [draft_id] is in the registry the tool raises inside [dispatch],
    before any Composer call, and the exception handler of [call_tool]
    returns the envelope it returns for any exception: [success] false,
    [error] with [str(e)], [traceback].  The exception is the
    [KeyError] of an absent required argument, so [error] is that name
    in quotes; for [add_text] it can also be what the [text_styles] loop
    raised. *)
Theorem missing_required_argument env t field args st :
  CAPCUT_AVAILABLE env = true →
  t ∈ TOOLS → field ∈ tool_required t →
  dict_get args field = None →
  (field = "draft_id" →
   dispatch env (tool_name t) (VDict args) st
     = (Returns invalid_draft_id, st) ∧
   call_tool env (tool_name t) (VDict args) st
     = (Returns (VDict [("success", VBool false);
                        ("error", VStr "Invalid draft_id")]), st) ∧
   ∀ e, invalid_draft_id ≠ exception_envelope env e) ∧
  (field ≠ "draft_id" →
   (references_draft st (VDict args) = false →
    truthy (get args "draft_id" VNone) = false
    ∨ hashable (get args "draft_id" VNone) = true →
    call_tool env (tool_name t) (VDict args) st
      = (Returns invalid_draft_id, st)) ∧
   (∀ s session folder,
      get args "draft_id" VNone = VStr s → s ≠ EmptyString →
      drafts st !! s = Some session → dict_get session "folder" = Some folder →
      ∃ e,
        exn_is_Exception e = true ∧
        dispatch env (tool_name t) (VDict args) st = (Raises e, st) ∧
        call_tool env (tool_name t) (VDict args) st
          = (Returns (VDict [("success", VBool false);
                             ("error", VStr (exn_str e));
                             ("traceback", VStr (format_exc env e))]), st) ∧
        (tool_name t ≠ "add_text" → e = KeyError field) ∧
        ((∃ field', field' ∈ tool_required t ∧ dict_get args field' = None ∧
                    e = KeyError field')
         ∨ (tool_name t = "add_text" ∧
            build_text_styles env args = Raises e)))).
Proof.
  intros Hflag Ht Hfield Hmiss.
  destruct (required_draft_tool env t field Ht Hfield) as (f0 & build0 & Hin0).
  split.
  - intros ->.
    assert (draft_tool env f0 build0 (VDict args) st
            = (Returns invalid_draft_id, st)) as Hd.
    { apply draft_tool_rejected. unfold get. by rewrite Hmiss. }
    rewrite call_tool_unfold, Hflag, (dispatch_draft_tool _ _ _ _ _ _ Hin0), Hd.
    by repeat split.
  - intros Hne. split.
    + intros Hn Hv.
      rewrite call_tool_unfold, Hflag, (dispatch_draft_tool _ _ _ _ _ _ Hin0).
      rewrite draft_tool_rejected; [done|].
      by apply unreferenced_rejected.
    + intros s session folder Hg Hs Hr Hf.
      destruct (required_missing env t field folder args (VStr s)
                  Ht Hfield Hne Hmiss)
        as (f & build & e & Hin & Hb & He & Hwhich).
      assert (exn_is_Exception e = true) as Hexn
        by exact (draft_tools_raise _ _ _ _ Hin _ _ _ _ Hb).
      exists e. split; [done|].
      assert (dispatch env (tool_name t) (VDict args) st = (Raises e, st))
        as Hd.
      { rewrite (dispatch_draft_tool _ _ _ _ _ _ Hin).
        by rewrite (draft_tool_resolved _ _ _ _ _ _ _ _ Hg Hs Hr Hf), Hb. }
      split; [done|]. split; [|done].
      by rewrite call_tool_unfold, Hflag, Hd, Hexn.
Qed.

Lemma missing_required_argument_witness :
  (call_tool sample_env "save_draft" (VDict []) one_draft
   = (Returns (VDict [("success", VBool false);
                      ("error", VStr "Invalid draft_id")]), one_draft)) ∧
  ∃ e,
    exn_is_Exception e = true ∧
    dispatch sample_env "add_video" (VDict [("draft_id", VStr "draft-0")])
      one_draft = (Raises e, one_draft) ∧
    call_tool sample_env "add_video" (VDict [("draft_id", VStr "draft-0")])
      one_draft
      = (Returns (VDict [("success", VBool false);
                         ("error", VStr (exn_str e));
                         ("traceback", VStr (format_exc sample_env e))]),
         one_draft) ∧
    ("add_video" ≠ "add_text" → e = KeyError "video_url") ∧
    ((∃ field', field' ∈ ["video_url"] ∧
                dict_get [("draft_id", VStr "draft-0")] field' = None ∧
                e = KeyError field')
     ∨ ("add_video" = "add_text" ∧
        build_text_styles sample_env [("draft_id", VStr "draft-0")] = Raises e)).
Proof.
  split.
  - refine (proj1 (proj2 (proj1 (missing_required_argument sample_env
      (MkTool "save_draft" _ ["draft_id"]) "draft_id"
      [] one_draft eq_refl _ _ eq_refl) eq_refl))).
    + unfold TOOLS. in_list.
    + apply list_elem_of_here.
  - refine (proj2 (proj2 (missing_required_argument sample_env
      (MkTool "add_video" _ ["video_url"]) "video_url"
      [("draft_id", VStr "draft-0")] one_draft eq_refl _ _ eq_refl) _)
      "draft-0"
      [("folder", VStr "ok:get_or_create_draft");
       ("width", VInt 720); ("height", VInt 1280)]
      (VStr "ok:get_or_create_draft") eq_refl _ eq_refl eq_refl).
    + unfold TOOLS. in_list.
    + apply list_elem_of_here.
    + discriminate.
    + discriminate.
Defined.

(** C3 as stated fails.  [add_video] without [video_url] on a draft of
    the registry: the [KeyError] is caught by the handler of [call_tool],
    and the envelope has the keys, the [success] and the [error] of the
    envelope a Composer raising [KeyError('video_url')] gets.  With a
    [draft_id] that is not in the registry the envelope is
    [Invalid draft_id] and names no missing argument. *)
Lemma missing_required_counterexample :
  let missing := VDict [("draft_id", VStr "draft-0")] in
  let complete := VDict [("draft_id", VStr "draft-0");
                         ("video_url", VStr "x.mp4")] in
  let r1 := call_tool sample_env "add_video" missing one_draft in
  let r2 := call_tool keyerror_env "add_video" complete one_draft in
  let r3 := call_tool sample_env "add_video"
              (VDict [("draft_id", VStr "nowhere")]) one_draft in
  dispatch sample_env "add_video" missing one_draft
    = (Raises (KeyError "video_url"), one_draft) ∧
  r1.1 = Returns (exception_envelope sample_env (KeyError "video_url")) ∧
  (∃ e1 e2 tb1 tb2,
     r1.1 = Returns (VDict e1) ∧ r2.1 = Returns (VDict e2) ∧
     e1 = [("success", VBool false); ("error", VStr "'video_url'");
           ("traceback", VStr tb1)] ∧
     e2 = [("success", VBool false); ("error", VStr "'video_url'");
           ("traceback", VStr tb2)] ∧
     calls r1.2 = calls one_draft ∧
     length (calls r2.2) = S (length (calls one_draft))) ∧
  r3.1 = Returns (VDict [("success", VBool false);
                         ("error", VStr "Invalid draft_id")]).
Proof.
  split; [reflexivity|]. split; [reflexivity|]. split; [|reflexivity].
  eexists _, _, _, _. repeat split; reflexivity.
Qed.

(** ** The two adapters *)

Lemma py_or_dict args : py_or (VDict args) (VDict []) = VDict args.
Proof. by destruct args. Qed.

(** C9, as the code has it.  For each of the nine tools of the catalog
    and every [dict] of arguments, the stdio handler and the SSE handler
    give the same content and leave the same state: the serialization,
    with [ensure_ascii=False], of the envelope of [call_tool].  The
    stdio handler treats absent arguments as the empty [dict]. *)
Theorem adapters_agree env name args st :
  name ∈ "create_draft" :: draft_tool_names →
  handle_call_tool env name (VDict args) st
    = mcp_server_sse.call_tool env name (VDict args) st ∧
  handle_call_tool env name VNone st
    = mcp_server_sse.call_tool env name (VDict []) st ∧
  mcp_server_sse.call_tool env name (VDict args) st
    = (result ← call_tool env name (VDict args);
       t ← lift (json_dumps env result false);
       mret [MkTextContent "text" t]) st.
Proof.
  intros Hin. split; [|split; [|reflexivity]].
  - unfold handle_call_tool, mcp_server_sse.call_tool.
    rewrite py_or_dict. unfold draft_tool_names in Hin.
    repeat (apply elem_of_cons in Hin as [->|Hin]); try reflexivity.
    by apply elem_of_nil in Hin.
  - unfold handle_call_tool, mcp_server_sse.call_tool, draft_tool_names in *.
    repeat (apply elem_of_cons in Hin as [->|Hin]); try reflexivity.
    by apply elem_of_nil in Hin.
Qed.

Lemma adapters_agree_witness :
  handle_call_tool sample_env "add_video"
    (VDict [("draft_id", VStr "draft-0"); ("video_url", VStr "x.mp4")]) one_draft
  = mcp_server_sse.call_tool sample_env "add_video"
      (VDict [("draft_id", VStr "draft-0"); ("video_url", VStr "x.mp4")]) one_draft.
Proof.
  refine (proj1 (adapters_agree sample_env "add_video"
    [("draft_id", VStr "draft-0"); ("video_url", VStr "x.mp4")] one_draft _)).
  apply list_elem_of_further, list_elem_of_here.
Defined.

(** C9 as stated fails.  For a name outside the catalog the stdio
    handler serializes a [dict] with [error] only, the SSE handler the
    envelope of [call_tool] with [success] and [error].  With [None] for
    the arguments the stdio handler calls [create_draft] on the empty
    [dict], which succeeds and stores a draft, while the SSE handler
    passes [None] on, [args.get] raises and the registry stays empty. *)
Lemma adapters_counterexample :
  let a1 := handle_call_tool sample_env "foo" (VDict []) init in
  let b1 := mcp_server_sse.call_tool sample_env "foo" (VDict []) init in
  let a2 := handle_call_tool sample_env "create_draft" VNone init in
  let b2 := mcp_server_sse.call_tool sample_env "create_draft" VNone init in
  a1.1 = (t ← json_dumps sample_env
                (VDict [("error", VStr "Unknown tool: foo")]) true;
          Returns [MkTextContent "text" t]) ∧
  b1.1 = (t ← json_dumps sample_env
                (VDict [("success", VBool false);
                        ("error", VStr "Unknown tool: foo")]) false;
          Returns [MkTextContent "text" t]) ∧
  a1.1 ≠ b1.1 ∧
  a2.1 = (t ← json_dumps sample_env
                (VDict [("success", VBool true);
                        ("draft_id", VStr "draft-0");
                        ("draft_folder", VStr "ok:get_or_create_draft");
                        ("width", VInt 1080);
                        ("height", VInt 1920)]) false;
          Returns [MkTextContent "text" t]) ∧
  b2.1 = (t ← json_dumps sample_env
                (exception_envelope sample_env (AttributeError VNone "get"))
                false;
          Returns [MkTextContent "text" t]) ∧
  a2.1 ≠ b2.1 ∧
  size (drafts a2.2) = 1 ∧ size (drafts b2.2) = 0.
Proof. repeat split; try reflexivity; discriminate. Qed.

(** * Further properties of the code *)

(** ** The catalog and [dispatch] *)

Lemma catalog_names_eq : catalog_names = "create_draft" :: draft_tool_names.
Proof. reflexivity. Qed.

Lemma unknown_tool_neq_invalid name : invalid_draft_id ≠ unknown_tool name.
Proof. discriminate. Qed.

(** What [call_tool] returns for a name of the catalog is never the
    [Unknown tool] envelope. *)
Lemma known_tool_result env name arguments st :
  CAPCUT_AVAILABLE env = true →
  name ∈ catalog_names →
  (call_tool env name arguments st).1 ≠ Returns (unknown_tool name).
Proof.
  intros Hflag. rewrite catalog_names_eq, call_tool_unfold, Hflag.
  intros [->|[f [build Hin]]%(draft_tool_names_spec env)]%elem_of_cons.
  - rewrite dispatch_create_draft.
    assert ((∃ args, arguments = VDict args) ∨ ∀ args, arguments ≠ VDict args)
      as [[args ->]|Hn] by (destruct arguments; eauto).
    + rewrite create_draft_run.
      destruct (composer env (calls st) _) as [?|e]; [done|].
      by destruct (exn_is_Exception e).
    + by rewrite create_draft_not_dict.
  - rewrite (dispatch_draft_tool _ _ _ _ _ _ Hin).
    destruct (draft_tool_cases env f build arguments st
                (draft_tools_raise _ _ _ _ Hin))
      as [(e & He & ->)|[->|(args & s & session & folder & kw
                             & _ & _ & _ & _ & _ & _ & ->)]];
      rewrite ?He; try done.
    destruct (composer env (calls st) _) as [?|e]; [done|].
    by destruct (exn_is_Exception e).
Qed.

(** X1.  The catalog and the dispatcher name the same tools.  With the
    Composer modules imported, [call_tool] answers [Unknown tool: <name>]
    exactly for the names that are not in [TOOLS]; for such a name it
    does so whatever the arguments are, even when they are not a [dict],
    and the state of the server is untouched. *)
Theorem catalog_matches_dispatch env name arguments st :
  CAPCUT_AVAILABLE env = true →
  (name ∈ catalog_names ↔
   (call_tool env name arguments st).1 ≠ Returns (unknown_tool name)) ∧
  (name ∉ catalog_names →
   call_tool env name arguments st = (Returns (unknown_tool name), st)).
Proof.
  intros Hflag.
  assert (name ∉ catalog_names →
          call_tool env name arguments st = (Returns (unknown_tool name), st))
    as Hunknown.
  { intros Hnot. rewrite call_tool_unfold, Hflag.
    destruct (dispatch_cases env name) as [->|[Hex|(_ & _ & ->)]]; [| |done].
    - destruct Hnot. rewrite catalog_names_eq. apply list_elem_of_here.
    - destruct Hnot. rewrite catalog_names_eq. apply list_elem_of_further.
      by apply (draft_tool_names_spec env). }
  split; [|done]. split.
  - by apply known_tool_result.
  - intros Hne. destruct (decide (name ∈ catalog_names)) as [|Hnot]; [done|].
    destruct Hne. by rewrite (Hunknown Hnot).
Qed.

Lemma catalog_matches_dispatch_witness :
  call_tool sample_env "delete_draft" (VList [VInt 1]) one_draft
  = (Returns (VDict [("success", VBool false);
                     ("error", VStr "Unknown tool: delete_draft")]),
     one_draft).
Proof.
  refine (proj2 (catalog_matches_dispatch sample_env "delete_draft"
                   (VList [VInt 1]) one_draft eq_refl) _).
  unfold catalog_names. simpl. rewrite !not_elem_of_cons.
  repeat split; try discriminate. apply not_elem_of_nil.
Defined.

(** ** Without the Composer modules *)

(** X2.  When the Composer modules could not be imported, every call
    is answered with the modules-not-available envelope, and a server
    never leaves its initial state: no draft is ever registered, no
    Composer function called, no identifier drawn. *)
Theorem unavailable_blocks_everything env :
  CAPCUT_AVAILABLE env = false →
  (∀ name arguments st,
     call_tool env name arguments st = (Returns unavailable, st)) ∧
  (∀ st, reachable env st → st = init).
Proof.
  intros Hflag.
  assert (∀ name arguments st,
            call_tool env name arguments st = (Returns unavailable, st)) as Hall.
  { intros. by rewrite call_tool_unfold, Hflag. }
  split; [done|].
  induction 1 as [|st name arguments _ ->]; [done|]. by rewrite Hall.
Qed.

Lemma unavailable_blocks_everything_witness :
  call_tool offline_env "create_draft" (VDict []) init
  = (Returns (VDict [("success", VBool false);
                     ("error",
                      VStr "CapCut modules not available. Please check installation.")]),
     init).
Proof.
  exact (proj1 (unavailable_blocks_everything offline_env eq_refl)
               "create_draft" (VDict []) init).
Defined.

(** ** The Composer calls of one [call_tool] *)

Lemma draft_tools_function env name f build :
  (name, (f, build)) ∈ draft_tools env →
  (name, f) ∈ composer_function ∧ name ≠ "create_draft".
Proof.
  intros Hin. split.
  - unfold draft_tools in Hin.
    repeat (apply elem_of_cons in Hin as [[= -> -> ->]|Hin]);
      [in_list ..|by apply elem_of_nil in Hin].
  - intros ->. by apply draft_tools_not_create in Hin.
Qed.

(** X3.  One [call_tool] makes at most one Composer call and never
    alters the calls made before.  The function called is the one that
    belongs to the tool: [get_or_create_draft] for [create_draft], with
    three positional arguments, the first being the generated id; for
    the other tools their own function, with keyword arguments only. *)
Theorem one_composer_call env name arguments st :
  let r := call_tool env name arguments st in
  calls r.2 = calls st ∨
  ∃ c,
    calls r.2 = (calls st ++ [c])%list ∧
    (name, fn c) ∈ composer_function ∧
    (name = "create_draft" →
     kwargs c = [] ∧
     ∃ width height,
       posargs c = [VStr (uuid4 env (uuids_drawn st)); width; height]) ∧
    (name ≠ "create_draft" → posargs c = []).
Proof.
  intros r. subst r. rewrite call_tool_unfold.
  destruct (CAPCUT_AVAILABLE env); [|by left].
  destruct (dispatch_runs env name arguments st)
    as [e' ->|envelope _ _|f build args s session folder kw Hin _ _ _ _ _ _
        |args -> _ id width height c0]; [by left|by left| |].
  - right. exists (MkCall f [] kw).
    destruct (draft_tools_function _ _ _ _ Hin) as [Hf Hne].
    split; [destruct (composer env (calls st) _) as [?|e]; [done|];
            by destruct (exn_is_Exception e)|].
    split; [done|]. split; [done|done].
  - right. exists c0.
    split; [destruct (composer env (calls st) c0) as [?|e]; [done|];
            by destruct (exn_is_Exception e)|].
    split; [apply list_elem_of_here|]. split; [|done].
    intros _. split; [done|]. by exists width, height.
Qed.

(** ** Envelopes and what happened *)


(** X4.  [call_tool] reports success exactly when it made a Composer
    call and that call returned: nothing is reported as done that the
    Composer did not do, and nothing the Composer did is reported as
    failed. *)
Theorem success_iff_composer_returned env name arguments st envelope :
  (call_tool env name arguments st).1 = Returns (VDict envelope) →
  (dict_get envelope "success" = Some (VBool true) ↔
   ∃ c result,
     calls (call_tool env name arguments st).2 = (calls st ++ [c])%list ∧
     composer env (calls st) c = Returns result).
Proof.
  rewrite call_tool_unfold.
  destruct (CAPCUT_AVAILABLE env).
  - destruct (dispatch_runs env name arguments st)
      as [e' ->|envelope' [->| ->] _|f build args s session folder kw _ _ _ _ _ _ _
          |args _ _ id width height c0]; simpl.
    + intros [= <-]. split; [done|].
      intros (c & _ & H & _). by apply app_singleton_neq in H.
    + intros [= <-]. split; [done|].
      intros (c & _ & H & _). by apply app_singleton_neq in H.
    + intros [= <-]. split; [done|].
      intros (c & _ & H & _). by apply app_singleton_neq in H.
    + destruct (composer env (calls st) (MkCall f [] kw)) as [result|e] eqn:Hc;
        [|destruct (exn_is_Exception e)]; simpl; [| |done]; intros [= <-].
      * split; [|done]. intros _. by exists (MkCall f [] kw), result.
      * split; [done|].
        intros (c & result & [_ <-]%app_inj_tail & Hc'). congruence.
    + destruct (composer env (calls st) c0) as [result|e] eqn:Hc;
        [|destruct (exn_is_Exception e)]; simpl; [| |done]; intros [= <-].
      * split; [|done]. intros _. by exists c0, result.
      * split; [done|].
        intros (c & result & [_ <-]%app_inj_tail & Hc'). congruence.
  - intros [= <-]. split; [done|].
    intros (c & _ & H & _). by apply app_singleton_neq in H.
Qed.

Lemma success_iff_composer_returned_witness :
  dict_get [("success", VBool false); ("error", VStr "fetch failed");
            ("traceback",
             VStr "Traceback (most recent call last): ConnectionError")]
    "success" = Some (VBool true)
  ↔ ∃ c result,
      calls (call_tool faulty_env "add_audio"
               (VDict [("draft_id", VStr "draft-0");
                       ("audio_url", VStr "a.mp3")]) one_draft).2
        = (calls one_draft ++ [c])%list ∧
      composer faulty_env (calls one_draft) c = Returns result.
Proof.
  exact (success_iff_composer_returned faulty_env "add_audio"
    (VDict [("draft_id", VStr "draft-0"); ("audio_url", VStr "a.mp3")])
    one_draft _ eq_refl).
Defined.

(** X5.  A failure envelope always carries an [error] that is a string
    and never a [result]; it carries a [traceback] exactly when an
    exception was raised inside the [try] of [call_tool], not for the
    unavailable-modules, unknown-tool and invalid-draft answers. *)
Theorem failure_envelope_error env name arguments st envelope :
  (call_tool env name arguments st).1 = Returns (VDict envelope) →
  dict_get envelope "success" = Some (VBool false) →
  (∃ msg, dict_get envelope "error" = Some (VStr msg)) ∧
  dict_get envelope "result" = None ∧
  (is_Some (dict_get envelope "traceback") ↔
   CAPCUT_AVAILABLE env = true ∧
   ∃ e, (dispatch env name arguments st).1 = Raises e).
Proof.
  rewrite call_tool_unfold.
  destruct (CAPCUT_AVAILABLE env).
  - destruct (dispatch_runs env name arguments st)
      as [e' ->|envelope' [->| ->] _|f build args s session folder kw _ _ _ _ _ _ _
          |args _ _ id width height c0]; simpl.
    + intros [= <-] _. split; [by eexists|]. split; [done|].
      split; [|by eexists]. intros _. split; [done|by eexists].
    + intros [= <-] _. split; [by eexists|]. split; [done|].
      split; [by intros [? ?]|by intros [_ [? ?]]].
    + intros [= <-] _. split; [by eexists|]. split; [done|].
      split; [by intros [? ?]|by intros [_ [? ?]]].
    + destruct (composer env (calls st) (MkCall f [] kw)) as [result|e];
        [|destruct (exn_is_Exception e)]; simpl; [| |done];
        intros [= <-]; [done|].
      intros _. split; [by eexists|]. split; [done|].
      split; [|by eexists]. intros _. split; [done|by eexists].
    + destruct (composer env (calls st) c0) as [result|e];
        [|destruct (exn_is_Exception e)]; simpl; [| |done];
        intros [= <-]; [done|].
      intros _. split; [by eexists|]. split; [done|].
      split; [|by eexists]. intros _. split; [done|by eexists].
  - intros [= <-] _. split; [by eexists|]. split; [done|].
    split; [by intros [? ?]|by intros [? _]].
Qed.

Lemma failure_envelope_error_witness :
  (∃ msg, dict_get [("success", VBool false);
                    ("error", VStr "Invalid draft_id")] "error"
          = Some (VStr msg)) ∧
  dict_get [("success", VBool false); ("error", VStr "Invalid draft_id")]
    "result" = None ∧
  (is_Some (dict_get [("success", VBool false);
                      ("error", VStr "Invalid draft_id")] "traceback") ↔
   CAPCUT_AVAILABLE sample_env = true ∧
   ∃ e, (dispatch sample_env "save_draft" (VDict []) one_draft).1 = Raises e).
Proof.
  exact (failure_envelope_error sample_env "save_draft" (VDict []) one_draft
           _ eq_refl eq_refl).
Defined.

(** ** Catalog defaults and the keywords the Composer receives *)

Lemma draft_tools_functional env name f build f' build' :
  (name, (f, build)) ∈ draft_tools env →
  (name, (f', build')) ∈ draft_tools env →
  f = f' ∧ build = build'.
Proof.
  unfold draft_tools. intros Hin Hin'.
  repeat (apply elem_of_cons in Hin as [Heq|Hin];
          [injection Heq as -> -> ->|]);
    try (by apply elem_of_nil in Hin);
    repeat (apply elem_of_cons in Hin' as [Heq'|Hin'];
            [first [discriminate Heq' | by injection Heq' as -> ->]|]);
    by apply elem_of_nil in Hin'.
Qed.

Ltac known_builder Hin :=
  match type of Hin with
  | (?name, (?f, ?build)) ∈ draft_tools ?env =>
      let H := fresh in
      let Hf := fresh in
      let Hb := fresh in
      eassert ((name, (_, _)) ∈ draft_tools env) as H by in_list;
      destruct (draft_tools_functional _ _ _ _ _ _ Hin H) as [Hf Hb];
      clear H; subst f build
  end.

Ltac open_builder Hb :=
  unfold add_video_kwargs, add_audio_kwargs, add_image_kwargs,
    add_text_kwargs, add_subtitle_kwargs, add_effect_kwargs,
    add_sticker_kwargs in Hb;
  repeat match type of Hb with
  | context [build_text_styles ?env ?args] =>
      destruct (build_text_styles env args); simpl in Hb; [|discriminate Hb]
  | context [item ?args ?k] =>
      let E := fresh "Hitem" in
      destruct (item args k) eqn:E; simpl in Hb; [|discriminate Hb]
  | context [py_sub ?a ?b] =>
      destruct (py_sub a b); simpl in Hb; [|discriminate Hb]
  end;
  injection Hb as <-.

Lemma item_get args k v dflt : item args k = Returns v → get args k dflt = v.
Proof.
  unfold item, get. destruct (dict_get args k); [|done]. by intros [= ->].
Qed.

(** Each argument a tool hands on reaches the Composer as
    [args.get(prop, fallback)]. *)
Lemma keyword_value env t p k f build folder args id kw :
  t ∈ TOOLS → p ∈ tool_properties t →
  keyword_of (tool_name t) (prop_name p) = Some k →
  (tool_name t, (f, build)) ∈ draft_tools env →
  build folder args id = Returns kw →
  dict_get kw k = Some (get args (prop_name p) (fallback p)).
Proof.
  intros Ht Hp Hk Hin Hb. unfold TOOLS in Ht.
  repeat (apply elem_of_cons in Ht as [->|Ht]);
    [| | | | | | | | |by apply elem_of_nil in Ht];
    simpl in Hp, Hk, Hin;
    [by apply draft_tools_not_create in Hin|..];
    known_builder Hin; simpl in Hb; open_builder Hb;
    repeat (apply elem_of_cons in Hp as [->|Hp]);
    try (by apply elem_of_nil in Hp);
    simpl in Hk; try discriminate Hk; injection Hk as <-;
    simpl; unfold fallback; simpl;
    first [ reflexivity
          | by erewrite item_get by eassumption ].
Qed.

(** The same at the level of [call_tool]. *)
Lemma call_keyword_value env t p k args st c :
  t ∈ TOOLS → p ∈ tool_properties t →
  tool_name t ≠ "create_draft" →
  keyword_of (tool_name t) (prop_name p) = Some k →
  calls (call_tool env (tool_name t) (VDict args) st).2
    = (calls st ++ [c])%list →
  dict_get (kwargs c) k = Some (get args (prop_name p) (fallback p)).
Proof.
  intros Ht Hp Hne Hk Hcalls.
  destruct (composer_call_made _ _ _ _ _ Hne Hcalls)
    as (f & build & args' & s & session & folder & kw
        & Hin & [= <-] & _ & _ & _ & _ & Hb & -> & _).
  simpl. by eapply keyword_value.
Qed.

(** X6.  The defaults the catalog declares are the defaults the code
    applies: when a draft-referencing tool calls the Composer and the
    caller left out an argument for which the catalog declares a
    default, the Composer receives that default under the argument's
    keyword. *)
Theorem catalog_defaults_honoured env t p d k args st c :
  t ∈ TOOLS → p ∈ tool_properties t →
  tool_name t ≠ "create_draft" →
  prop_default p = Some d →
  keyword_of (tool_name t) (prop_name p) = Some k →
  dict_get args (prop_name p) = None →
  calls (call_tool env (tool_name t) (VDict args) st).2
    = (calls st ++ [c])%list →
  dict_get (kwargs c) k = Some d.
Proof.
  intros Ht Hp Hne Hd Hk Habs Hcalls.
  rewrite (call_keyword_value _ _ _ _ _ _ _ Ht Hp Hne Hk Hcalls).
  unfold get, fallback. by rewrite Habs, Hd.
Qed.

Lemma catalog_defaults_honoured_witness :
  dict_get
    [("draft_folder", VStr "ok:get_or_create_draft"); ("srt_path", VStr "a.srt");
     ("track_name", VStr "subtitle"); ("time_offset", VInt 0);
     ("font", VNone); ("font_size", VFloat 8.0);
     ("font_color", VStr "#FFFFFF"); ("bold", VBool false);
     ("italic", VBool false); ("underline", VBool false);
     ("border_width", VFloat 0.0); ("border_color", VStr "#000000");
     ("background_color", VStr "#000000"); ("background_alpha", VFloat 0.0);
     ("transform_x", VFloat 0.0); ("transform_y", VFloat (-0.8));
     ("width", VInt 1080); ("height", VInt 1920)] "transform_y"
  = Some (VFloat (-0.8)).
Proof.
  refine (catalog_defaults_honoured sample_env
    (MkTool "add_subtitle" _ ["srt_path"])
    (MkProperty "transform_y" "number" (Some (VFloat (-0.8))))
    (VFloat (-0.8)) "transform_y"
    [("draft_id", VStr "draft-0"); ("srt_path", VStr "a.srt")] one_draft
    (MkCall "add_subtitle_impl" [] _)
    _ _ _ eq_refl eq_refl eq_refl eq_refl).
  - unfold TOOLS. do 5 apply list_elem_of_further. apply list_elem_of_here.
  - simpl. in_list.
  - discriminate.
Defined.

(** X7.  What the caller supplies is what the Composer receives: an
    argument the tool hands on arrives unchanged under its keyword,
    whatever its type; the tools check no argument against the type the
    catalog declares. *)
Theorem caller_values_passed_on env t p v k args st c :
  t ∈ TOOLS → p ∈ tool_properties t →
  tool_name t ≠ "create_draft" →
  keyword_of (tool_name t) (prop_name p) = Some k →
  dict_get args (prop_name p) = Some v →
  calls (call_tool env (tool_name t) (VDict args) st).2
    = (calls st ++ [c])%list →
  dict_get (kwargs c) k = Some v.
Proof.
  intros Ht Hp Hne Hk Hv Hcalls.
  rewrite (call_keyword_value _ _ _ _ _ _ _ Ht Hp Hne Hk Hcalls).
  unfold get. by rewrite Hv.
Qed.

Lemma caller_values_passed_on_witness :
  dict_get
    [("draft_folder", VStr "ok:get_or_create_draft"); ("text", VStr "hi");
     ("start", VInt 0); ("duration", VInt 2);
     ("color", VList [VStr "not a colour"]); ("font_size", VInt 24);
     ("track_name", VStr "text_main");
     ("width", VInt 1080); ("height", VInt 1920); ("text_styles", VNone);
     ("shadow_enabled", VBool false); ("shadow_color", VStr "#000000");
     ("shadow_alpha", VFloat 0.8); ("shadow_angle", VFloat 315.0);
     ("shadow_distance", VFloat 5.0); ("shadow_smoothing", VFloat 0.0);
     ("background_color", VNone); ("background_alpha", VFloat 1.0);
     ("background_style", VInt 0); ("background_round_radius", VFloat 0.0)]
    "color"
  = Some (VList [VStr "not a colour"]).
Proof.
  refine (caller_values_passed_on sample_env
    (MkTool "add_text" _ ["text"; "start"; "end"])
    (MkProperty "font_color" "string" (Some (VStr "#ffffff")))
    (VList [VStr "not a colour"]) "color"
    [("draft_id", VStr "draft-0"); ("text", VStr "hi"); ("start", VInt 0);
     ("end", VInt 2); ("font_color", VList [VStr "not a colour"])] one_draft
    (MkCall "add_text_impl" [] _)
    _ _ _ eq_refl eq_refl eq_refl).
  - unfold TOOLS. do 4 apply list_elem_of_further. apply list_elem_of_here.
  - simpl. in_list.
  - discriminate.
Defined.

(** ** Which arguments a call depends on *)

Lemma draft_tool_agree env f build args args' st :
  dict_get args "draft_id" = dict_get args' "draft_id" →
  (∀ folder id, build folder args id = build folder args' id) →
  draft_tool env f build (VDict args) st
  = draft_tool env f build (VDict args') st.
Proof.
  intros Hid Hbuild. unfold_M. simpl. unfold get. rewrite Hid.
  destruct (draft_id_rejected _ _) as [[|]|]; simpl; try done.
  destruct (drafts_folder _ _); simpl; [|done]. by rewrite Hbuild.
Qed.

Ltac use_agreement Hag args :=
  unfold add_video_kwargs, add_audio_kwargs, add_image_kwargs,
    add_text_kwargs, add_subtitle_kwargs, add_effect_kwargs,
    add_sticker_kwargs, build_text_styles, dict_mem, item, get;
  repeat match goal with
  | |- context [dict_get args ?k] =>
      rewrite (Hag k ltac:(in_list))
  end.

(** The keywords a tool builds depend on the arguments it reads only. *)
Lemma builder_agree env t f build args args' folder id :
  t ∈ TOOLS →
  (tool_name t, (f, build)) ∈ draft_tools env →
  agree_on (arguments_read t) args args' →
  build folder args id = build folder args' id.
Proof.
  intros Ht Hin Hag. unfold TOOLS in Ht.
  repeat (apply elem_of_cons in Ht as [->|Ht]);
    [| | | | | | | | |by apply elem_of_nil in Ht];
    simpl in Hin;
    [by apply draft_tools_not_create in Hin|..];
    known_builder Hin; unfold agree_on, arguments_read in Hag;
    simpl in Hag; simpl; use_agreement Hag args; reflexivity.
Qed.

(** X8.  A call depends only on the arguments the catalog declares for
    the tool, and for [add_text] also on [width] and [height], which it
    reads although the catalog does not declare them: two argument
    dicts that agree on these give the same envelope, the same Composer
    call and the same state.  Any other entry of the arguments is
    ignored without an error. *)
Theorem undeclared_arguments_ignored env t args args' st :
  t ∈ TOOLS →
  agree_on (arguments_read t) args args' →
  call_tool env (tool_name t) (VDict args) st
  = call_tool env (tool_name t) (VDict args') st.
Proof.
  intros Ht Hag. rewrite !call_tool_unfold.
  destruct (CAPCUT_AVAILABLE env); [|done].
  destruct (dispatch_cases env (tool_name t))
    as [Hcreate|[(f & build & Hin)|(_ & _ & Hu)]].
  - unfold TOOLS in Ht.
    repeat (apply elem_of_cons in Ht as [->|Ht]);
      try (by apply elem_of_nil in Ht); try discriminate Hcreate.
    simpl. rewrite !dispatch_create_draft, !create_draft_run.
    unfold agree_on, arguments_read in Hag. simpl in Hag.
    unfold get.
    by rewrite (Hag "width" ltac:(in_list)), (Hag "height" ltac:(in_list)).
  - rewrite !(dispatch_draft_tool _ _ _ _ _ _ Hin).
    rewrite (draft_tool_agree env f build args args'); [done| |].
    + apply Hag. unfold arguments_read, TOOLS in *.
      repeat (apply elem_of_cons in Ht as [->|Ht]);
        [| | | | | | | | |by apply elem_of_nil in Ht]; simpl in *;
        [by apply draft_tools_not_create in Hin|in_list..].
    + intros folder id. by eapply builder_agree.
  - by rewrite !Hu.
Qed.

Lemma undeclared_arguments_ignored_witness :
  call_tool sample_env "add_audio"
    (VDict [("draft_id", VStr "draft-0"); ("audio_url", VStr "a.mp3");
            ("fade_in", VFloat 0.5)]) one_draft
  = call_tool sample_env "add_audio"
      (VDict [("draft_id", VStr "draft-0"); ("audio_url", VStr "a.mp3")])
      one_draft.
Proof.
  refine (undeclared_arguments_ignored sample_env
    (MkTool "add_audio" _ ["audio_url"]) _ _ one_draft _ _).
  - unfold TOOLS. do 2 apply list_elem_of_further. apply list_elem_of_here.
  - unfold agree_on, arguments_read. simpl. intros k Hk.
    repeat (apply elem_of_cons in Hk as [->|Hk]); try reflexivity.
    by apply elem_of_nil in Hk.
Defined.

(** X9.  [add_image] ignores four options its catalog entry declares:
    [intro_animation], [outro_animation], [transition] and [mask_type]
    are properties of the input schema, and two calls that differ only
    in them are the same call: the Composer never learns of them. *)
Theorem add_image_ignores_options env args args' st :
  (∀ k, k ∉ ["intro_animation"; "outro_animation"; "transition"; "mask_type"] →
        dict_get args k = dict_get args' k) →
  (∀ k, k ∈ ["intro_animation"; "outro_animation"; "transition"; "mask_type"] →
        ∃ t p, t ∈ TOOLS ∧ tool_name t = "add_image" ∧
               p ∈ tool_properties t ∧ prop_name p = k) ∧
  call_tool env "add_image" (VDict args) st
  = call_tool env "add_image" (VDict args') st.
Proof.
  intros Hag. split.
  - intros k Hk.
    eexists (MkTool "add_image" _ ["image_url"]), (MkProperty k "string" None).
    split; [unfold TOOLS; do 3 apply list_elem_of_further;
            apply list_elem_of_here|].
    split; [done|]. split; [|done]. simpl.
    repeat (apply elem_of_cons in Hk as [->|Hk]); [in_list..|].
    by apply elem_of_nil in Hk.
  - assert (∀ k, k ∈ ["image_url"; "draft_id"; "start"; "end"; "width";
                      "height"; "transform_x"; "transform_y"; "scale_x";
                      "scale_y"; "track_name"] →
                 dict_get args k = dict_get args' k) as Hread.
    { intros k Hk. apply Hag.
      repeat (apply elem_of_cons in Hk as [->|Hk]);
        [rewrite !not_elem_of_cons; repeat split; try discriminate;
         apply not_elem_of_nil ..|].
      by apply elem_of_nil in Hk. }
    rewrite !call_tool_unfold. destruct (CAPCUT_AVAILABLE env); [|done].
    assert (("add_image", ("add_image_impl",
              (fun folder a (_ : pyval) => add_image_kwargs folder a)))
            ∈ draft_tools env) as Hin by (unfold draft_tools; in_list).
    rewrite !(dispatch_draft_tool _ _ _ _ _ _ Hin).
    rewrite (draft_tool_agree env _ _ args args'); [done| |].
    + apply Hread. in_list.
    + intros folder id. use_agreement Hread args. reflexivity.
Qed.

Lemma add_image_ignores_options_witness :
  call_tool sample_env "add_image"
    (VDict [("mask_type", VStr "circle"); ("draft_id", VStr "draft-0");
            ("image_url", VStr "x.png")]) one_draft
  = call_tool sample_env "add_image"
      (VDict [("draft_id", VStr "draft-0"); ("image_url", VStr "x.png")])
      one_draft.
Proof.
  refine (proj2 (add_image_ignores_options sample_env _ _ one_draft _)).
  intros k Hk. cbn [dict_get].
  destruct (String.eqb_spec "mask_type" k) as [<-|_]; [|reflexivity].
  destruct Hk. in_list.
Defined.

(** ** Where sessions and folders come from *)

Lemma lookup_snoc_old {A} (l : list A) (x : A) i y :
  l !! i = Some y →
  ((l ++ [x])%list !! i = Some y) ∧ take i (l ++ [x])%list = take i l.
Proof.
  intros Hi. pose proof (lookup_lt_Some _ _ _ Hi) as Hlt. split.
  - by rewrite lookup_app_l.
  - rewrite take_app_le; [done|lia].
Qed.

(** Every session was made by a [create_draft]. *)
Lemma session_provenance_aux env st k session :
  reachable env st →
  drafts st !! k = Some session →
  ∃ i width height folder,
    calls st !! i
      = Some (MkCall "get_or_create_draft" [VStr k; width; height] []) ∧
    composer env (take i (calls st))
      (MkCall "get_or_create_draft" [VStr k; width; height] [])
      = Returns folder ∧
    session = [("folder", folder); ("width", width); ("height", height)].
Proof.
  intros Hreach. revert k session.
  induction Hreach as [|st name arguments Hreach IH]; intros k session.
  - simpl. by rewrite lookup_empty.
  - destruct (call_tool_step env name arguments st)
      as [(Hd & _ & _ & Hc)|(_ & _ & args & folder & _ & Hc & ->)].
    + rewrite Hd. intros (i & w & h & fo & Hi & Hret & ->)%IH.
      exists i, w, h, fo. destruct Hc as [->|[c ->]]; [done|].
      destruct (lookup_snoc_old _ c _ _ Hi) as [-> ->]. done.
    + simpl. intros [[<- <-]|[_ Hk]]%lookup_insert_Some.
      * exists (length (calls st)), (get args "width" (VInt 1080)),
               (get args "height" (VInt 1920)), folder.
        rewrite lookup_app_r, Nat.sub_diag by lia.
        rewrite take_app_length. done.
      * apply IH in Hk as (i & w & h & fo & Hi & Hret & ->).
        exists i, w, h, fo.
        by destruct (lookup_snoc_old _
          (MkCall "get_or_create_draft"
             [VStr (uuid4 env (uuids_drawn st)); get args "width" (VInt 1080);
              get args "height" (VInt 1920)] []) _ _ Hi) as [-> ->].
Qed.

(** X10.  Every session of a registry the server reaches was made by a
    [create_draft]: the log holds a call of [get_or_create_draft] for
    the session's id with the session's width and height, that call
    returned, and the session's folder is what it returned.  No entry
    of the registry has any other origin. *)
Theorem session_provenance env st k session :
  reachable env st →
  drafts st !! k = Some session →
  ∃ i width height folder,
    calls st !! i
      = Some (MkCall "get_or_create_draft" [VStr k; width; height] []) ∧
    composer env (take i (calls st))
      (MkCall "get_or_create_draft" [VStr k; width; height] [])
      = Returns folder ∧
    session = [("folder", folder); ("width", width); ("height", height)].
Proof.
  intros Hreach. revert k session.
  induction Hreach as [|st name arguments Hreach IH]; intros k session.
  - simpl. by rewrite lookup_empty.
  - destruct (call_tool_step env name arguments st)
      as [(Hd & _ & _ & Hc)|(_ & _ & args & folder & _ & Hc & ->)].
    + rewrite Hd. intros (i & w & h & fo & Hi & Hret & ->)%IH.
      exists i, w, h, fo. destruct Hc as [->|[c ->]]; [done|].
      destruct (lookup_snoc_old _ c _ _ Hi) as [-> ->]. done.
    + simpl. intros [[<- <-]|[_ Hk]]%lookup_insert_Some.
      * exists (length (calls st)), (get args "width" (VInt 1080)),
               (get args "height" (VInt 1920)), folder.
        rewrite lookup_app_r, Nat.sub_diag by lia.
        rewrite take_app_length. done.
      * apply IH in Hk as (i & w & h & fo & Hi & Hret & ->).
        exists i, w, h, fo.
        by destruct (lookup_snoc_old _
          (MkCall "get_or_create_draft"
             [VStr (uuid4 env (uuids_drawn st)); get args "width" (VInt 1080);
              get args "height" (VInt 1920)] []) _ _ Hi) as [-> ->].
Qed.

Lemma session_provenance_witness :
  ∃ i width height folder,
    calls one_draft !! i
      = Some (MkCall "get_or_create_draft" [VStr "draft-0"; width; height] []) ∧
    composer sample_env (take i (calls one_draft))
      (MkCall "get_or_create_draft" [VStr "draft-0"; width; height] [])
      = Returns folder ∧
    [("folder", VStr "ok:get_or_create_draft");
     ("width", VInt 720); ("height", VInt 1280)]
    = [("folder", folder); ("width", width); ("height", height)].
Proof.
  refine (session_provenance sample_env one_draft "draft-0" _ _ eq_refl).
  apply reach_call, reach_init.
Defined.

Lemma builder_draft_folder env name f build folder args id kw :
  (name, (f, build)) ∈ draft_tools env →
  build folder args id = Returns kw →
  dict_get kw "draft_folder" = Some folder.
Proof.
  intros Hin Hb. unfold draft_tools in Hin.
  repeat (apply elem_of_cons in Hin as [Heq|Hin];
          [injection Heq as -> -> ->|]);
    [..|by apply elem_of_nil in Hin];
    open_builder Hb; reflexivity.
Qed.

(** X11.  A tool works on the folder of the draft it was given and on
    no other: in every state the server reaches, the [draft_folder] a
    draft-referencing tool passes to the Composer is the value
    [get_or_create_draft] returned when the draft named by the call's
    [draft_id] was created. *)
Theorem draft_folder_of_the_draft env name arguments st c :
  reachable env st →
  name ≠ "create_draft" →
  calls (call_tool env name arguments st).2 = (calls st ++ [c])%list →
  ∃ args k i width height folder,
    arguments = VDict args ∧
    dict_get args "draft_id" = Some (VStr k) ∧
    calls st !! i
      = Some (MkCall "get_or_create_draft" [VStr k; width; height] []) ∧
    composer env (take i (calls st))
      (MkCall "get_or_create_draft" [VStr k; width; height] [])
      = Returns folder ∧
    dict_get (kwargs c) "draft_folder" = Some folder.
Proof.
  intros Hreach Hne Hcalls.
  destruct (composer_call_made _ _ _ _ _ Hne Hcalls)
    as (f & build & args & s & session & folder & kw
        & Hin & -> & Hg & _ & Hr & Hf & Hb & -> & _).
  destruct (session_provenance_aux env st s session Hreach Hr)
    as (i & w & h & fo & Hi & Hret & ->).
  exists args, s, i, w, h, fo. split; [done|]. split.
  - unfold get in Hg. by destruct (dict_get args "draft_id") as [v|]; simplify_eq.
  - split; [done|]. split; [done|]. simpl.
    rewrite (builder_draft_folder _ _ _ _ _ _ _ _ Hin Hb).
    simpl in Hf. by simplify_eq.
Qed.

Lemma draft_folder_of_the_draft_witness :
  ∃ args k i width height folder,
    VDict [("draft_id", VStr "draft-0"); ("video_url", VStr "x.mp4")]
      = VDict args ∧
    dict_get args "draft_id" = Some (VStr k) ∧
    calls one_draft !! i
      = Some (MkCall "get_or_create_draft" [VStr k; width; height] []) ∧
    composer sample_env (take i (calls one_draft))
      (MkCall "get_or_create_draft" [VStr k; width; height] [])
      = Returns folder ∧
    dict_get
      (kwargs (MkCall "add_video_track" []
         (match add_video_kwargs (VStr "ok:get_or_create_draft")
                  [("draft_id", VStr "draft-0"); ("video_url", VStr "x.mp4")]
          with Returns kw => kw | Raises _ => [] end)))
      "draft_folder" = Some folder.
Proof.
  refine (draft_folder_of_the_draft sample_env "add_video"
    (VDict [("draft_id", VStr "draft-0"); ("video_url", VStr "x.mp4")])
    one_draft _ _ _ eq_refl).
  - apply reach_call, reach_init.
  - discriminate.
Defined.

(** ** Draft ids *)

(** X12.  An id of the registry is never answered with
    [Invalid draft_id]: a draft-referencing tool called with it either
    calls the Composer or raised while preparing its arguments, and the
    handler of [call_tool] answered. *)
Theorem registered_id_accepted env name args st id session :
  CAPCUT_AVAILABLE env = true →
  name ∈ draft_tool_names →
  drafts st !! id = Some session → id ≠ EmptyString →
  dict_get args "draft_id" = Some (VStr id) →
  let r := call_tool env name (VDict args) st in
  r.1 ≠ Returns invalid_draft_id ∧
  ((∃ c, calls r.2 = (calls st ++ [c])%list) ∨
   (∃ e, r = (Returns (exception_envelope env e), st))).
Proof.
  intros Hflag [f [build Hin]]%(draft_tool_names_spec env) Hr Hid Hg r.
  subst r. rewrite call_tool_unfold, Hflag.
  rewrite (dispatch_draft_tool _ _ _ _ _ _ Hin).
  assert (get args "draft_id" VNone = VStr id) as Hget
    by (unfold get; by rewrite Hg).
  destruct (dict_get session "folder") as [folder|] eqn:Hf.
  - rewrite (draft_tool_resolved _ _ _ _ _ _ _ _ Hget Hid Hr Hf).
    destruct (build folder args (VStr id)) as [kw|e] eqn:Hb.
    + destruct (composer env (calls st) _) as [?|e];
        [|destruct (exn_is_Exception e)];
        (split; [done|left; by eexists]).
    + rewrite (draft_tools_raise _ _ _ _ Hin _ _ _ _ Hb).
      split; [done|]. right. by exists e.
  - unfold_M. simpl. rewrite Hget, (rejected_false _ _ _ Hid Hr). simpl.
    rewrite Hr. unfold item. rewrite Hf. simpl.
    split; [done|]. right. by eexists.
Qed.

Lemma registered_id_accepted_witness :
  (call_tool sample_env "save_draft" (VDict [("draft_id", VStr "draft-0")])
     one_draft).1 ≠ Returns invalid_draft_id.
Proof.
  refine (proj1 (registered_id_accepted sample_env "save_draft"
    [("draft_id", VStr "draft-0")] one_draft "draft-0" _
    eq_refl _ eq_refl _ eq_refl)).
  - unfold draft_tool_names. in_list.
  - discriminate.
Defined.

(** X13.  [create_draft] never hands out an id twice: when [uuid4]
    does not repeat itself, the [draft_id] in the envelope of a
    [create_draft], in any state the server reaches, was not a key of
    the registry before the call and is one after it, and the registry
    has grown by one. *)
Theorem fresh_draft_ids env st arguments envelope v :
  Inj (=) (=) (uuid4 env) →
  reachable env st →
  (call_tool env "create_draft" arguments st).1 = Returns (VDict envelope) →
  dict_get envelope "draft_id" = Some v →
  ∃ id,
    v = VStr id ∧
    drafts st !! id = None ∧
    is_Some (drafts (call_tool env "create_draft" arguments st).2 !! id) ∧
    size (drafts (call_tool env "create_draft" arguments st).2)
      = S (size (drafts st)).
Proof.
  intros Hinj Hreach.
  pose proof (reachable_fresh env st Hinj Hreach) as Hfresh.
  rewrite call_tool_unfold.
  destruct (CAPCUT_AVAILABLE env); [|by intros [= <-]].
  rewrite dispatch_create_draft.
  assert ((∃ args, arguments = VDict args) ∨ ∀ args, arguments ≠ VDict args)
    as [[args ->]|Hn] by (destruct arguments; eauto).
  - rewrite create_draft_run.
    destruct (composer env (calls st) _) as [folder|e]; simpl.
    + intros [= <-] [= <-]. eexists. split; [done|]. split; [done|].
      split; [by rewrite lookup_insert_eq|by apply map_size_insert_None].
    + destruct (exn_is_Exception e); simpl; [by intros [= <-]|done].
  - rewrite create_draft_not_dict by done. by intros [= <-].
Qed.

Lemma sample_uuid4_inj : Inj (=) (=) (uuid4 sample_env).
Proof.
  intros x y [= H]. simpl in H. by apply pretty_nat_inj in H.
Qed.

Lemma fresh_draft_ids_witness :
  ∃ id,
    VStr "draft-1" = VStr id ∧
    drafts one_draft !! id = None ∧
    is_Some (drafts (call_tool sample_env "create_draft" (VDict [])
                       one_draft).2 !! id) ∧
    size (drafts (call_tool sample_env "create_draft" (VDict []) one_draft).2)
      = S (size (drafts one_draft)).
Proof.
  refine (fresh_draft_ids sample_env one_draft (VDict []) _ (VStr "draft-1")
            sample_uuid4_inj _ eq_refl eq_refl).
  apply reach_call, reach_init.
Defined.

(** ** What a tool accepts and what it rejects *)

(** With its required arguments present, and the duration computable
    where one is computed, the keyword builder of a tool returns. *)
Lemma builder_returns env t f build folder args id :
  t ∈ TOOLS →
  (tool_name t, (f, build)) ∈ draft_tools env →
  (∀ field, field ∈ tool_required t → is_Some (dict_get args field)) →
  (tool_name t ∈ ["add_image"; "add_effect"; "add_sticker"] →
   ∃ d, py_sub (get args "end" (VFloat 3.0)) (get args "start" (VInt 0))
        = Returns d) →
  (tool_name t = "add_text" →
   (∃ d, py_sub (get args "end" VNone) (get args "start" VNone) = Returns d) ∧
   ∃ ts, build_text_styles env args = Returns ts) →
  ∃ kw, build folder args id = Returns kw.
Proof.
  intros Ht Hin Hreq Hdur Htext. unfold TOOLS in Ht.
  repeat (apply elem_of_cons in Ht as [->|Ht]);
    [| | | | | | | | |by apply elem_of_nil in Ht];
    simpl in Hin, Hreq, Hdur, Htext;
    [by apply draft_tools_not_create in Hin|..];
    known_builder Hin; simpl;
    unfold add_video_kwargs, add_audio_kwargs, add_image_kwargs,
      add_text_kwargs, add_subtitle_kwargs, add_effect_kwargs,
      add_sticker_kwargs.
  - destruct (Hreq "video_url" ltac:(in_list)) as [v Hv].
    unfold item. rewrite Hv. by eexists.
  - destruct (Hreq "audio_url" ltac:(in_list)) as [v Hv].
    unfold item. rewrite Hv. by eexists.
  - destruct (Hreq "image_url" ltac:(in_list)) as [v Hv].
    destruct (Hdur ltac:(in_list)) as [d Hd].
    unfold item. rewrite Hv. simpl. rewrite Hd. by eexists.
  - destruct (Hreq "text" ltac:(in_list)) as [v1 Hv1].
    destruct (Hreq "start" ltac:(in_list)) as [v2 Hv2].
    destruct (Hreq "end" ltac:(in_list)) as [v3 Hv3].
    destruct (Htext eq_refl) as [[d Hd] [ts ->]]. simpl.
    unfold get in Hd. rewrite Hv2, Hv3 in Hd.
    unfold item. rewrite Hv1, Hv2, Hv3. simpl. rewrite Hd. by eexists.
  - destruct (Hreq "srt_path" ltac:(in_list)) as [v Hv].
    unfold item. rewrite Hv. by eexists.
  - destruct (Hreq "effect_type" ltac:(in_list)) as [v Hv].
    destruct (Hdur ltac:(in_list)) as [d Hd].
    unfold item. rewrite Hv. simpl. rewrite Hd. by eexists.
  - destruct (Hreq "sticker_url" ltac:(in_list)) as [v Hv].
    destruct (Hdur ltac:(in_list)) as [d Hd].
    unfold item. rewrite Hv. simpl. rewrite Hd. by eexists.
  - by eexists.
Qed.

(** X14.  The required arguments are all a tool asks for.  On a draft
    of the registry, with the arguments the catalog requires present
    and, where a duration is computed, [end - start] defined (and for
    [add_text] the [text_styles] constructed), the Composer is called:
    no other argument is checked for presence, type or range. *)
Theorem required_arguments_suffice env t args s session folder st :
  CAPCUT_AVAILABLE env = true →
  t ∈ TOOLS → tool_name t ≠ "create_draft" →
  (∀ field, field ∈ tool_required t → is_Some (dict_get args field)) →
  get args "draft_id" VNone = VStr s → s ≠ EmptyString →
  drafts st !! s = Some session → dict_get session "folder" = Some folder →
  (tool_name t ∈ ["add_image"; "add_effect"; "add_sticker"] →
   ∃ d, py_sub (get args "end" (VFloat 3.0)) (get args "start" (VInt 0))
        = Returns d) →
  (tool_name t = "add_text" →
   (∃ d, py_sub (get args "end" VNone) (get args "start" VNone) = Returns d) ∧
   ∃ ts, build_text_styles env args = Returns ts) →
  ∃ c,
    calls (call_tool env (tool_name t) (VDict args) st).2
      = (calls st ++ [c])%list ∧
    (tool_name t, fn c) ∈ composer_function ∧
    dict_get (kwargs c) "draft_folder" = Some folder.
Proof.
  intros Hflag Ht Hne Hreq Hg Hs Hr Hf Hdur Htext.
  destruct (dispatch_cases env (tool_name t))
    as [?|[(f & build & Hin)|(Hnot & _)]]; [done| |].
  - destruct (builder_returns env t f build folder args (VStr s)
                Ht Hin Hreq Hdur Htext) as [kw Hb].
    exists (MkCall f [] kw).
    rewrite (call_tool_resolved _ _ _ _ _ _ _ _ _ _ Hflag Hin Hg Hs Hr Hf Hb).
    split; [done|]. split; [by apply (draft_tools_function env _ _ build)|].
    by eapply builder_draft_folder.
  - destruct Hnot. unfold TOOLS in Ht.
    repeat (apply elem_of_cons in Ht as [->|Ht]);
      [done|simpl; in_list..|by apply elem_of_nil in Ht].
Qed.

Lemma required_arguments_suffice_witness :
  ∃ c,
    calls (call_tool sample_env "add_video"
             (VDict [("draft_id", VStr "draft-0"); ("video_url", VInt 7);
                     ("speed", VStr "fast")]) one_draft).2
      = (calls one_draft ++ [c])%list ∧
    ("add_video", fn c) ∈ composer_function ∧
    dict_get (kwargs c) "draft_folder" = Some (VStr "ok:get_or_create_draft").
Proof.
  refine (required_arguments_suffice sample_env
    (MkTool "add_video" _ ["video_url"])
    [("draft_id", VStr "draft-0"); ("video_url", VInt 7);
     ("speed", VStr "fast")]
    "draft-0" _ _ one_draft eq_refl _ _ _ eq_refl _ eq_refl eq_refl _ _).
  - unfold TOOLS. apply list_elem_of_further, list_elem_of_here.
  - discriminate.
  - intros field ->%list_elem_of_singleton. by eexists.
  - discriminate.
  - simpl. intros Hin.
    repeat (apply elem_of_cons in Hin as [Heq|Hin]; [discriminate Heq|]).
    by apply elem_of_nil in Hin.
  - discriminate.
Defined.

(** X15.  A [start] or [end] that is not a number stops [add_image],
    [add_effect] and [add_sticker] before the Composer: the subtraction
    raises [TypeError], the envelope is the one of the exception handler
    with the interpreter's message, and the state is untouched. *)
Theorem non_numeric_duration env name f key args s session folder url st :
  CAPCUT_AVAILABLE env = true →
  (name, f, key) ∈ [("add_image", "add_image_impl", "image_url");
                    ("add_effect", "add_effect_impl", "effect_type");
                    ("add_sticker", "add_sticker_impl", "sticker_url")] →
  get args "draft_id" VNone = VStr s → s ≠ EmptyString →
  drafts st !! s = Some session → dict_get session "folder" = Some folder →
  dict_get args key = Some url →
  as_number (get args "end" (VFloat 3.0)) = None
  ∨ as_number (get args "start" (VInt 0)) = None →
  call_tool env name (VDict args) st
  = (Returns
       (exception_envelope env
          (TypeError ("unsupported operand type(s) for -: '" ++
                      type_name (get args "end" (VFloat 3.0)) ++ "' and '" ++
                      type_name (get args "start" (VInt 0)) ++ "'"))),
     st).
Proof.
  intros Hflag Hin Hg Hs Hr Hf Hurl Hnum.
  assert (py_sub (get args "end" (VFloat 3.0)) (get args "start" (VInt 0))
          = Raises (TypeError ("unsupported operand type(s) for -: '" ++
                      type_name (get args "end" (VFloat 3.0)) ++ "' and '" ++
                      type_name (get args "start" (VInt 0)) ++ "'"))) as Hsub.
  { unfold py_sub. destruct Hnum as [-> | Hn]; [done|]. rewrite Hn.
    by destruct (as_number (get args "end" (VFloat 3.0))) as [[]|]. }
  rewrite call_tool_unfold, Hflag.
  repeat (apply elem_of_cons in Hin as [[= -> -> ->]|Hin]);
    [| | |by apply elem_of_nil in Hin].
  - change (dispatch env "add_image" (VDict args) st)
      with (draft_tool env "add_image_impl"
              (fun folder a _ => add_image_kwargs folder a) (VDict args) st).
    rewrite (draft_tool_resolved _ _ _ _ _ _ _ _ Hg Hs Hr Hf).
    unfold add_image_kwargs, item. rewrite Hurl. simpl. by rewrite Hsub.
  - change (dispatch env "add_effect" (VDict args) st)
      with (draft_tool env "add_effect_impl"
              (fun folder a _ => add_effect_kwargs folder a) (VDict args) st).
    rewrite (draft_tool_resolved _ _ _ _ _ _ _ _ Hg Hs Hr Hf).
    unfold add_effect_kwargs, item. rewrite Hurl. simpl. by rewrite Hsub.
  - change (dispatch env "add_sticker" (VDict args) st)
      with (draft_tool env "add_sticker_impl"
              (fun folder a _ => add_sticker_kwargs folder a) (VDict args) st).
    rewrite (draft_tool_resolved _ _ _ _ _ _ _ _ Hg Hs Hr Hf).
    unfold add_sticker_kwargs, item. rewrite Hurl. simpl. by rewrite Hsub.
Qed.

Lemma non_numeric_duration_witness :
  call_tool sample_env "add_sticker"
    (VDict [("draft_id", VStr "draft-0"); ("sticker_url", VStr "s.png");
            ("end", VStr "5")]) one_draft
  = (Returns (VDict [("success", VBool false);
                     ("error",
                      VStr "unsupported operand type(s) for -: 'str' and 'int'");
                     ("traceback",
                      VStr "Traceback (most recent call last): TypeError")]),
     one_draft).
Proof.
  refine (non_numeric_duration sample_env
    "add_sticker" "add_sticker_impl" "sticker_url"
    [("draft_id", VStr "draft-0"); ("sticker_url", VStr "s.png");
     ("end", VStr "5")]
    "draft-0" _ _ (VStr "s.png") one_draft
    eq_refl _ eq_refl _ eq_refl eq_refl eq_refl (or_introl eq_refl)).
  - in_list.
  - discriminate.
Defined.

(** ** [text_styles] *)

Lemma make_styles_all env l os :
  Forall2 (fun style o =>
             ∃ kw, style = VDict kw ∧ TextStyleRange env kw = Returns o) l os →
  make_styles env l = Returns os.
Proof.
  induction 1 as [|style o l os (kw & -> & Hkw) _ IH]; [done|].
  simpl. by rewrite Hkw, IH.
Qed.

Lemma make_styles_not_mapping env l style :
  style ∈ l → (∀ kw, style ≠ VDict kw) →
  ∃ e, make_styles env l = Raises e.
Proof.
  intros Hin Hn. induction l as [|x l IH]; [by apply elem_of_nil in Hin|].
  apply elem_of_cons in Hin as [<-|Hin].
  - simpl. destruct style; try by eexists. by destruct (Hn d).
  - destruct (IH Hin) as [e He]. simpl.
    destruct (make_style env x); simpl; [|by eexists].
    rewrite He. by eexists.
Qed.

(** X16.  [add_text] rebuilds [text_styles]: a list of mappings
    becomes the list of the [TextStyleRange] objects made from them, in
    order; an absent or empty [text_styles] is passed as [None].  The
    duration is [end - start] of the two required arguments, and the
    track is always [text_main]. *)
Theorem text_styles_built
    env args l os s session folder text start end_ d st :
  CAPCUT_AVAILABLE env = true →
  get args "draft_id" VNone = VStr s → s ≠ EmptyString →
  drafts st !! s = Some session → dict_get session "folder" = Some folder →
  dict_get args "text" = Some text →
  dict_get args "start" = Some start →
  dict_get args "end" = Some end_ →
  py_sub end_ start = Returns d →
  (dict_get args "text_styles" = None ∧ l = [] ∧ os = [])
  ∨ (dict_get args "text_styles" = Some (VList l) ∧
     Forall2 (fun style o =>
                ∃ kw, style = VDict kw ∧ TextStyleRange env kw = Returns o)
             l os) →
  ∃ kw,
    calls (call_tool env "add_text" (VDict args) st).2
      = (calls st ++ [MkCall "add_text_impl" [] kw])%list ∧
    dict_get kw "text_styles"
      = Some (match os with [] => VNone | _ => VList os end) ∧
    dict_get kw "duration" = Some d ∧
    dict_get kw "track_name" = Some (VStr "text_main").
Proof.
  intros Hflag Hg Hs Hr Hf Htext Hstart Hend Hd Hstyles.
  assert (build_text_styles env args = Returns os) as Hts.
  { unfold build_text_styles, dict_mem, item.
    destruct Hstyles as [(-> & _ & ->)|[-> Hall]]; [done|].
    simpl. by apply make_styles_all. }
  assert (("add_text", ("add_text_impl",
             (fun folder a (_ : pyval) =>
                ts ← build_text_styles env a; add_text_kwargs folder a ts)))
          ∈ draft_tools env) as Hin by (unfold draft_tools; in_list).
  assert (∃ kw, add_text_kwargs folder args os = Returns kw ∧
                dict_get kw "text_styles"
                  = Some (match os with [] => VNone | _ => VList os end) ∧
                dict_get kw "duration" = Some d ∧
                dict_get kw "track_name" = Some (VStr "text_main"))
    as (kw & Hkw & Hprops).
  { unfold add_text_kwargs, item.
    rewrite Htext, Hstart, Hend. simpl. rewrite Hd. simpl. by eexists. }
  exists kw. split; [|done].
  rewrite (call_tool_resolved _ _ _ _ _ _ _ _ kw _ Hflag Hin Hg Hs Hr Hf);
    [done|].
  by rewrite Hts.
Qed.

Lemma text_styles_built_witness :
  ∃ kw,
    calls (call_tool sample_env "add_text"
             (VDict [("draft_id", VStr "draft-0"); ("text", VStr "hi");
                     ("start", VInt 0); ("end", VInt 2);
                     ("track_name", VStr "mine");
                     ("text_styles",
                      VList [VDict [("start", VInt 0); ("end", VInt 1)]])])
             one_draft).2
      = (calls one_draft ++ [MkCall "add_text_impl" [] kw])%list ∧
    dict_get kw "text_styles" = Some (VList [VObj 0]) ∧
    dict_get kw "duration" = Some (VInt 2) ∧
    dict_get kw "track_name" = Some (VStr "text_main").
Proof.
  refine (text_styles_built sample_env
    [("draft_id", VStr "draft-0"); ("text", VStr "hi");
     ("start", VInt 0); ("end", VInt 2); ("track_name", VStr "mine");
     ("text_styles", VList [VDict [("start", VInt 0); ("end", VInt 1)]])]
    [VDict [("start", VInt 0); ("end", VInt 1)]] [VObj 0]
    "draft-0" _ _ (VStr "hi") (VInt 0) (VInt 2) (VInt 2) one_draft
    eq_refl eq_refl _ eq_refl eq_refl eq_refl eq_refl eq_refl eq_refl
    (or_intror (conj eq_refl _))).
  - discriminate.
  - repeat constructor. by eexists.
Defined.

(** X17.  A [text_styles] that cannot be rebuilt stops [add_text]
    before the Composer, whatever the other arguments are: a value
    that is [None] or a number is not iterable, an element of the list
    that is not a mapping cannot be unpacked.  The call returns the
    envelope of the exception handler and the state is untouched. *)
Theorem text_styles_rejected env args v s session folder st :
  CAPCUT_AVAILABLE env = true →
  get args "draft_id" VNone = VStr s → s ≠ EmptyString →
  drafts st !! s = Some session → dict_get session "folder" = Some folder →
  dict_get args "text_styles" = Some v →
  v = VNone ∨ is_Some (as_number v)
  ∨ (∃ l style, v = VList l ∧ style ∈ l ∧ ∀ kw, style ≠ VDict kw) →
  ∃ e,
    call_tool env "add_text" (VDict args) st
    = (Returns (exception_envelope env e), st).
Proof.
  intros Hflag Hg Hs Hr Hf Hv Hbad.
  assert (∃ e, build_text_styles env args = Raises e) as [e Hts].
  { unfold build_text_styles, dict_mem, item. rewrite Hv. simpl.
    destruct Hbad as [->|[[n Hn]|(l & style & -> & Hin & Hn)]].
    - by eexists.
    - destruct v; try done; by eexists.
    - simpl. by eapply make_styles_not_mapping. }
  exists e.
  assert (("add_text", ("add_text_impl",
             (fun folder a (_ : pyval) =>
                ts ← build_text_styles env a; add_text_kwargs folder a ts)))
          ∈ draft_tools env) as Hin by (unfold draft_tools; in_list).
  rewrite call_tool_unfold, Hflag, (dispatch_draft_tool _ _ _ _ _ _ Hin).
  rewrite (draft_tool_resolved _ _ _ _ _ _ _ _ Hg Hs Hr Hf).
  rewrite Hts. simpl.
  by rewrite (build_text_styles_raises _ _ _ Hts).
Qed.

Lemma text_styles_rejected_witness :
  ∃ e,
    call_tool sample_env "add_text"
      (VDict [("draft_id", VStr "draft-0"); ("text", VStr "hi");
              ("start", VInt 0); ("end", VInt 2);
              ("text_styles", VList [VStr "bold"])]) one_draft
    = (Returns (exception_envelope sample_env e), one_draft).
Proof.
  refine (text_styles_rejected sample_env
    [("draft_id", VStr "draft-0"); ("text", VStr "hi");
     ("start", VInt 0); ("end", VInt 2);
     ("text_styles", VList [VStr "bold"])] (VList [VStr "bold"])
    "draft-0" _ _ one_draft eq_refl eq_refl _ eq_refl eq_refl eq_refl
    (or_intror (or_intror _))).
  - discriminate.
  - exists [VStr "bold"], (VStr "bold").
    split; [done|]. split; [apply list_elem_of_here|discriminate].
Defined.

(** ** The adapters and serialization *)

Lemma sse_unfold env name arguments st :
  mcp_server_sse.call_tool env name arguments st =
    match call_tool env name arguments st with
    | (Returns result, st') =>
        (match json_dumps env result false with
         | Returns t => Returns [MkTextContent "text" t]
         | Raises e => Raises e
         end, st')
    | (Raises e, st') => (Raises e, st')
    end.
Proof.
  unfold mcp_server_sse.call_tool. unfold_M.
  destruct (call_tool env name arguments st) as [[result|e] st']; [|done].
  by destruct (json_dumps env result false).
Qed.

(** A failure envelope is made of strings and booleans and is always
    serialized. *)
Lemma failure_serializable env name arguments st envelope :
  (call_tool env name arguments st).1 = Returns (VDict envelope) →
  dict_get envelope "success" = Some (VBool false) →
  ∃ t, json_dumps env (VDict envelope) false = Returns t.
Proof.
  rewrite call_tool_unfold.
  destruct (CAPCUT_AVAILABLE env); [|intros [= <-] _; by eexists].
  destruct (dispatch_runs env name arguments st)
    as [e' ->|envelope' [->| ->] _|f build args s session folder kw _ _ _ _ _ _ _
        |args _ _ id width height c0]; simpl.
  - intros [= <-] _. by eexists.
  - intros [= <-] _. by eexists.
  - intros [= <-] _. by eexists.
  - destruct (composer env (calls st) (MkCall f [] kw)) as [?|e];
      [|destruct (exn_is_Exception e)]; simpl; [| |done];
      intros [= <-]; [done|]. intros _. by eexists.
  - destruct (composer env (calls st) c0) as [?|e];
      [|destruct (exn_is_Exception e)]; simpl; [| |done];
      intros [= <-]; [done|]. intros _. by eexists.
Qed.

(** X18.  An adapter loses no error: whenever [call_tool] answers with
    a failure envelope, the SSE handler returns exactly one text
    content, the serialization of that envelope, and does not raise. *)
Theorem failure_always_answered env name arguments st envelope :
  (call_tool env name arguments st).1 = Returns (VDict envelope) →
  dict_get envelope "success" = Some (VBool false) →
  ∃ t,
    json_dumps env (VDict envelope) false = Returns t ∧
    mcp_server_sse.call_tool env name arguments st
    = (Returns [MkTextContent "text" t], (call_tool env name arguments st).2).
Proof.
  intros Hr Hs.
  destruct (failure_serializable _ _ _ _ _ Hr Hs) as [t Ht].
  exists t. split; [done|]. rewrite sse_unfold.
  destruct (call_tool env name arguments st) as [[result|e] st'];
    cbn [fst snd] in *; [|done].
  injection Hr as ->. by rewrite Ht.
Qed.

Lemma failure_always_answered_witness :
  ∃ t,
    json_dumps sample_env
      (VDict [("success", VBool false); ("error", VStr "Invalid draft_id")])
      false = Returns t ∧
    mcp_server_sse.call_tool sample_env "save_draft" (VDict []) one_draft
    = (Returns [MkTextContent "text" t],
       (call_tool sample_env "save_draft" (VDict []) one_draft).2).
Proof.
  exact (failure_always_answered sample_env "save_draft" (VDict []) one_draft
           _ eq_refl eq_refl).
Defined.


(** [add_audio_track] leaves the interpreter: [SystemExit] passes
    through [call_tool] and the SSE handler. *)
Example exit_passes_adapter :
  let st1 := (call_tool exit_env "create_draft" (VDict []) init).2 in
  (mcp_server_sse.call_tool exit_env "add_audio"
     (VDict [("draft_id", VStr "draft-0"); ("audio_url", VStr "a.mp3")])
     st1).1
  = Raises (Exn "SystemExit" "1" false).
Proof. reflexivity. Qed.

(** X20.  The stdio handler answers a name outside the catalog itself,
    without [call_tool]: whatever the arguments, and whether or not the
    Composer modules were imported, it returns one text content, the
    serialization of a [dict] with the single entry [error], and leaves
    the state of the server untouched. *)
Theorem stdio_unknown_tool env name arguments st :
  name ∉ catalog_names →
  ∃ t,
    json_dumps env (VDict [("error", VStr ("Unknown tool: " ++ name))]) true
      = Returns t ∧
    handle_call_tool env name arguments st
    = (Returns [MkTextContent "text" t], st).
Proof.
  rewrite catalog_names_eq. unfold draft_tool_names.
  rewrite !not_elem_of_cons. intros (? & ? & ? & ? & ? & ? & ? & ? & ? & _).
  eexists. split; [reflexivity|]. unfold handle_call_tool.
  repeat match goal with
  | H : name ≠ ?s |- context [String.eqb name ?s] =>
      destruct (String.eqb_spec name s); [done|]
  end.
  reflexivity.
Qed.

Lemma stdio_unknown_tool_witness :
  ∃ t,
    json_dumps offline_env
      (VDict [("error", VStr ("Unknown tool: " ++ "render"))]) true = Returns t ∧
    handle_call_tool offline_env "render" VNone init
    = (Returns [MkTextContent "text" t], init).
Proof.
  refine (stdio_unknown_tool offline_env "render" VNone init _).
  unfold catalog_names. simpl. rewrite !not_elem_of_cons.
  repeat split; try discriminate. apply not_elem_of_nil.
Defined.

(** ** The listings *)

Lemma construct_all_spec {A B} (mk : A → outcome B) (l : list A) :
  (∀ ys, construct_all mk l = Returns ys →
         Forall2 (fun x y => mk x = Returns y) l ys) ∧
  (∀ e, construct_all mk l = Raises e → ∃ x, x ∈ l ∧ mk x = Raises e).
Proof.
  induction l as [|x l [IHr IHe]]; simpl.
  - split; [by intros ys [= <-]; constructor|done].
  - destruct (mk x) as [y|e'] eqn:Hx; simpl.
    + destruct (construct_all mk l) as [ys'|e'] eqn:Hl; simpl.
      * split; [|done]. intros ys [= <-]. constructor; [done|by apply IHr].
      * split; [done|]. intros e [= <-].
        destruct (IHe e' eq_refl) as (x' & Hin & Hx').
        exists x'. split; [by apply list_elem_of_further|done].
    + split; [done|]. intros e [= <-]. exists x.
      split; [apply list_elem_of_here|done].
Qed.

(** X21.  The two adapters list the same tools: each builds one
    descriptor per entry of the catalog, in the order of the catalog,
    nine in all, and fails only when the constructor refuses an entry;
    the names they list are the names [call_tool] dispatches. *)
Theorem listings_agree {T} (mk : Tool → outcome T) :
  handle_list_tools mk = list_tools mk ∧
  (∀ l, list_tools mk = Returns l →
        Forall2 (fun t y => mk t = Returns y) TOOLS l ∧ length l = 9) ∧
  (∀ e, list_tools mk = Raises e → ∃ t, t ∈ TOOLS ∧ mk t = Raises e) ∧
  tool_name <$> TOOLS = "create_draft" :: draft_tool_names.
Proof.
  split; [done|]. unfold list_tools, get_tools.
  destruct (construct_all_spec mk TOOLS) as [Hr He].
  split; [|split; [exact He|reflexivity]].
  intros l Hl. pose proof (Hr l Hl) as Hall. split; [done|].
  by rewrite <- (Forall2_length _ _ _ Hall).
Qed.

(** [get_or_create_draft] returns an object that is not serializable:
    the SSE handler raises, and the draft is in the registry. *)
Example answer_lost_draft_kept :
  let r := mcp_server_sse.call_tool opaque_env "create_draft" (VDict []) init in
  r.1 = Raises (TypeError "Object of type object is not JSON serializable") ∧
  drafts r.2 !! "draft-0"
  = Some [("folder", VObj 7); ("width", VInt 1080); ("height", VInt 1920)].
Proof. split; reflexivity. Qed.
